(** * TASK4.py: exploratory analysis of a traffic-accident CSV

    A shallow embedding of the script [TASK4.py]: the pandas dataframe
    it builds, the cleaning steps (column pruning, numeric coercion,
    datetime parsing) and the order in which figures are shown.

    The script is straight-line Python over pandas, numpy, seaborn and
    matplotlib.  The embedding keeps the script's own control flow (each
    top-level statement block is one step below) and models the library
    calls by their documented behaviour on the data the script passes.
    The [print] and [df.info()] lines only write to the terminal and are
    left out. *)

From Stdlib Require Import Ascii String ZArith QArith Qround Lia Bool List Permutation Sorted.
Import ListNotations.
Local Open Scope string_scope.
Local Open Scope list_scope.
Local Open Scope Z_scope.

(** ** IEEE-754 binary64 arithmetic, as far as the script uses it

    Line 23 computes [len(df) * (1 - missing_threshold)] in Python
    floats.  A finite double is kept as the dyadic [mant * 2 ^ expo];
    every operation computes the exact rational result and rounds it to
    53 significant bits, nearest, ties to even.  A mantissa that rounds
    up to 2^53 is kept as it is: it denotes the same double.  Overflow
    to infinity is not represented: the operands of the script stay
    below 2^53. *)
Module Binary64.

Record float := mk { mant : Z; expo : Z }.

Definition emin : Z := -1074.

(** [a / b] rounded to the nearest integer, ties to even ([0 < b]). *)
Definition rne (a b : Z) : Z :=
  let q := a / b in
  let r := a mod b in
  match 2 * r ?= b with
  | Lt => q
  | Gt => q + 1
  | Eq => if Z.even q then q else q + 1
  end.

(** floor (log2 (a / b)) for [0 < a], [0 < b]. *)
Definition ilog2 (a b : Z) : Z :=
  let d := Z.log2 a - Z.log2 b in
  if (if 0 <=? d then a <? b * 2 ^ d else a * 2 ^ (- d) <? b)
  then d - 1 else d.

(** The double nearest to the rational [a / b] ([0 < b]). *)
Definition round (a b : Z) : float :=
  if a =? 0 then mk 0 0 else
  let e := Z.max (ilog2 (Z.abs a) b - 52) emin in
  if 0 <=? e then mk (rne a (b * 2 ^ e)) e
  else mk (rne (a * 2 ^ (- e)) b) e.

Definition round_dyadic (m e : Z) : float :=
  if 0 <=? e then round (m * 2 ^ e) 1 else round m (2 ^ (- e)).

(** [float(n)] for a Python int. *)
Definition of_int (n : Z) : float := round n 1.

Definition sub (x y : float) : float :=
  let e := Z.min (expo x) (expo y) in
  round_dyadic (mant x * 2 ^ (expo x - e) - mant y * 2 ^ (expo y - e)) e.

Definition mul (x y : float) : float :=
  round_dyadic (mant x * mant y) (expo x + expo y).

(** [x <= y] *)
Definition leb (x y : float) : bool :=
  let e := Z.min (expo x) (expo y) in
  mant x * 2 ^ (expo x - e) <=? mant y * 2 ^ (expo y - e).

(** [f] holds exactly the integer [c]. *)
Definition denotes (f : float) (c : Z) : bool :=
  if 0 <=? expo f then mant f * 2 ^ expo f =? c
  else mant f =? c * 2 ^ (- expo f).

(** The real comparison [f <= c] against an integer [c]. *)
Definition le_int (f : float) (c : Z) : bool :=
  if 0 <=? expo f then mant f * 2 ^ expo f <=? c
  else mant f <=? c * 2 ^ (- expo f).

End Binary64.

(** ** Dataframes *)

(** A cell of a column.  [NaN] and [NaT] are the missing values of
    pandas; [Time] is a [datetime64[ns]] stamp, nanoseconds since the
    epoch. *)
Inductive Cell : Type :=
| NaN
| Num (x : Q)
| Bool (b : bool)
| Str (s : string)
| Time (ns : Z)
| NaT.

(** The dtype classes the script tells apart: [np.number] (int64,
    float64, ...), [bool], [object] and [datetime64[ns]]. *)
Inductive Dtype : Type := Numeric | BoolT | Object | Datetime.

Record Series := mkSeries { dtype : Dtype; values : list Cell }.

(** Columns keep the order of [df.columns]; [nrows] is [len(df)]. *)
Record DataFrame := mkDF { nrows : nat; columns : list (string * Series) }.

Definition column_names (df : DataFrame) : list string :=
  map fst (columns df).

(** [name in df.columns] *)
Definition has_column (name : string) (df : DataFrame) : bool :=
  existsb (String.eqb name) (column_names df).

Fixpoint lookup (name : string) (cols : list (string * Series)) : option Series :=
  match cols with
  | [] => None
  | (k, s) :: rest => if String.eqb name k then Some s else lookup name rest
  end.

(** [pd.isna] on one cell. *)
Definition isna (c : Cell) : bool :=
  match c with
  | NaN | NaT => true
  | _ => false
  end.

(** [Series.count()]: the number of non-missing cells. *)
Definition count (s : Series) : nat :=
  length (filter (fun c => negb (isna c)) (values s)).

Definition missing (s : Series) : nat :=
  length (filter isna (values s)).

(** Every column has one cell per row. *)
Definition well_formed (df : DataFrame) : Prop :=
  Forall (fun c => length (values (snd c)) = nrows df) (columns df).

(** ** Line 21-24: pruning columns with too many missing values *)

(** [missing_threshold = 0.3] *)
Definition missing_threshold : Binary64.float := Binary64.round 3 10.

(** [n * (1 - missing_threshold)] *)
Definition thresh_of (n : Z) : Binary64.float :=
  Binary64.mul (Binary64.of_int n)
               (Binary64.sub (Binary64.of_int 1) missing_threshold).

(** [len(df) * (1 - missing_threshold)] *)
Definition prune_thresh (n : nat) : Binary64.float :=
  thresh_of (Z.of_nat n).

(** [df.dropna(thresh=t, axis=1)]: pandas computes the per-column
    non-missing counts and keeps the columns with [count >= t]; the
    index (the rows) is untouched. *)
Definition dropna_columns (t : Binary64.float) (df : DataFrame) : DataFrame :=
  mkDF (nrows df)
       (filter (fun c => Binary64.leb t (Binary64.of_int (Z.of_nat (count (snd c)))))
               (columns df)).

Definition prune_missing (df : DataFrame) : DataFrame :=
  dropna_columns (prune_thresh (nrows df)) df.

(** ** Exceptions and the script's state *)

Inductive Exn : Type :=
| KeyError (key : string)
| ValueError (msg : string)
| AttributeError (msg : string).

(** The figures of the script, one per [plt.show()] of the source, in
    source order. *)
Inductive PlotKind : Type :=
| Heatmap          (* line 43-48 *)
| CityBar          (* line 50-58 *)
| SeverityPie      (* line 60-66 *)
| RoadPie          (* line 68-74 *)
| WeatherBar       (* line 76-83 *)
| HoursHist        (* line 85-93 *)
| Scatter          (* line 95-108 *)
| TempBox          (* line 110-117 *)
| WindViolin       (* line 119-126 *)
| TempDensity      (* line 128-134 *)
| Pairplot.        (* line 136-150 *)

Definition plot_order : list PlotKind :=
  [Heatmap; CityBar; SeverityPie; RoadPie; WeatherBar; HoursHist; Scatter;
   TempBox; WindViolin; TempDensity; Pairplot].

(** A displayed figure: which plot it is and the columns of the data
    handed to the plotting call. *)
Record Figure := mkFig { kind : PlotKind; uses : list string }.

(** The scalar parsers of pandas.  They are library code; the script
    only chooses what happens when they fail. *)
Class Parsing := {
  (** [na_values] of [read_csv]: the fields read as missing *)
  is_na_field : string -> bool;
  (** the number a text holds, if it is one *)
  number_of_string : string -> option Q;
  (** [True] / [False] fields *)
  bool_of_string : string -> option bool;
  (** the timestamp (ns since the epoch) a text holds, if it is one *)
  datetime_of_string : string -> option Z;
  (** a number read as ns since the epoch, if in range *)
  datetime_of_number : Q -> option Z
}.

(** numpy's legacy generator: [RandomState(seed)] and
    [RandomState.permutation(k)], a shuffle of [0 .. k-1]. *)
Class Rng := {
  RngState : Type;
  seed_rng : Z -> RngState;
  permutation : RngState -> nat -> list nat;
  permutation_perm : forall g k, Permutation (permutation g k) (seq 0 k)
}.

(** A tokenised CSV file: the header line and the data records. *)
Record CsvFile := mkCsv { header : list string; records : list (list string) }.

Section Script.

Context {P : Parsing} {R : Rng}.

(** What the plotting backend does with a call: [None] when the figure
    is drawn, [Some e] when seaborn or matplotlib raises on this data. *)
Variable render : PlotKind -> DataFrame -> option Exn.

(** The module-level names of the script, the figures shown so far and
    numpy's global generator. *)
Record St := mkSt {
  df : DataFrame;
  df_cat : DataFrame;
  df_num : DataFrame;
  df_sample : option DataFrame;
  shown : list Figure;
  np_random : RngState
}.

Inductive Result (A : Type) : Type :=
| Ok (a : A) (s : St)
| Raised (e : Exn) (s : St).
Arguments Ok {A} a s.
Arguments Raised {A} e s.

Definition M (A : Type) : Type := St -> Result A.

Definition ret {A} (a : A) : M A := fun s => Ok a s.

Definition bind {A B} (m : M A) (k : A -> M B) : M B :=
  fun s => match m s with
           | Ok a s' => k a s'
           | Raised e s' => Raised e s'
           end.

Definition raise {A} (e : Exn) : M A := fun s => Raised e s.

Definition lift {A} (r : Exn + A) : M A :=
  match r with
  | inl e => raise e
  | inr a => ret a
  end.

Definition get_df : M DataFrame := fun s => Ok (df s) s.

Definition put_df (d : DataFrame) : M unit :=
  fun s => Ok tt (mkSt d (df_cat s) (df_num s) (df_sample s) (shown s) (np_random s)).

Definition put_sample (d : DataFrame) : M unit :=
  fun s => Ok tt (mkSt (df s) (df_cat s) (df_num s) (Some d) (shown s) (np_random s)).

Definition final_state {A} (r : Result A) : St :=
  match r with
  | Ok _ s => s
  | Raised _ s => s
  end.

Definition completed {A} (r : Result A) : bool :=
  match r with
  | Ok _ _ => true
  | Raised _ _ => false
  end.

Notation "x <- m ;; k" := (bind m (fun x => k))
  (at level 61, m at next level, right associativity).
Notation "m ;;; k" := (bind m (fun _ => k))
  (at level 61, right associativity).

(** ** Line 10-12: loading *)

Definition nrows_limit : nat := Z.to_nat 100000.

Definition read_field (j : nat) (rec : list string) : option string :=
  match nth_error rec j with
  | Some f => if is_na_field f then None else Some f
  | None => None
  end.

Definition number_cell (f : option string) : option Cell :=
  match f with
  | None => Some NaN
  | Some s => option_map Num (number_of_string s)
  end.

Definition bool_cell (f : option string) : option Cell :=
  match f with
  | None => Some NaN
  | Some s => option_map Bool (bool_of_string s)
  end.

Definition object_cell (f : option string) : Cell :=
  match f with
  | None => NaN
  | Some s => Str s
  end.

Fixpoint all_cells {A} (conv : A -> option Cell) (l : list A) : option (list Cell) :=
  match l with
  | [] => Some []
  | a :: rest =>
      match conv a, all_cells conv rest with
      | Some c, Some cs => Some (c :: cs)
      | _, _ => None
      end
  end.

(** dtype inference of the parser: numeric when every present field is
    a number, else boolean, else text. *)
Definition infer_column (fields : list (option string)) : Series :=
  match fields with
  | [] => mkSeries Object []
  | _ =>
      match all_cells number_cell fields with
      | Some cs => mkSeries Numeric cs
      | None =>
          match all_cells bool_cell fields with
          | Some cs => mkSeries (if existsb isna cs then Object else BoolT) cs
          | None => mkSeries Object (map object_cell fields)
          end
      end
  end.

(** [pd.read_csv(path, nrows=n)]: only the first [n] records are read.
    Column [j] takes the [j]-th field of every record, a record that is
    too short gives a missing value.  Header names are taken as they
    are (pandas renames repeated ones). *)
Definition read_csv (csv : CsvFile) (n : nat) : DataFrame :=
  let rows := firstn n (records csv) in
  mkDF (length rows)
       (map (fun jn => (snd jn, infer_column (map (read_field (fst jn)) rows)))
            (combine (seq 0 (length (header csv))) (header csv))).

(** ** Line 26-32: feature split and dropped columns *)

Definition is_number_dtype (d : Dtype) : bool :=
  match d with Numeric => true | _ => false end.

Definition is_object_dtype (d : Dtype) : bool :=
  match d with Object => true | _ => false end.

(** [df.select_dtypes(...)] *)
Definition select_dtypes (keep : Dtype -> bool) (d : DataFrame) : DataFrame :=
  mkDF (nrows d) (filter (fun c => keep (dtype (snd c))) (columns d)).

(** [df.drop(names, axis=1, errors='ignore')] *)
Definition drop_columns (names : list string) (d : DataFrame) : DataFrame :=
  mkDF (nrows d)
       (filter (fun c => negb (existsb (String.eqb (fst c)) names)) (columns d)).

(** The state after line 32. *)
Definition setup (csv : CsvFile) (g : RngState) : St :=
  let d0 := read_csv csv nrows_limit in
  let d1 := prune_missing d0 in
  let cat := drop_columns ["ID"] (select_dtypes is_object_dtype d1) in
  let num := select_dtypes is_number_dtype d1 in
  let cat := drop_columns ["Description"; "Zipcode"; "Weather_Timestamp"] cat in
  let d2 := drop_columns ["Airport_Code"] d1 in
  mkSt d2 cat num None [] g.

(** ** Indexing *)

(** [df[name]] *)
Definition getitem (name : string) (d : DataFrame) : Exn + Series :=
  match lookup name (columns d) with
  | Some s => inr s
  | None => inl (KeyError name)
  end.

Fixpoint replace_column (name : string) (s : Series) (cols : list (string * Series))
  : list (string * Series) :=
  match cols with
  | [] => [(name, s)]
  | (k, old) :: rest =>
      if String.eqb name k then (k, s) :: rest
      else (k, old) :: replace_column name s rest
  end.

(** [df[name] = s]: replaces the column in place, or appends it. *)
Definition setitem (name : string) (s : Series) (d : DataFrame) : DataFrame :=
  mkDF (nrows d) (replace_column name s (columns d)).

(** [df[names]] with a list of names. *)
Fixpoint select_columns (names : list string) (d : DataFrame)
  : Exn + list (string * Series) :=
  match names with
  | [] => inr []
  | n :: rest =>
      match lookup n (columns d) with
      | None => inl (KeyError n)
      | Some s =>
          match select_columns rest d with
          | inl e => inl e
          | inr cs => inr ((n, s) :: cs)
          end
      end
  end.

(** ** Coercions *)

Inductive ErrMode : Type := ErrRaise | ErrCoerce.

(** Element-wise conversion; a cell [conv] rejects raises under
    [errors='raise'] and becomes [na] under [errors='coerce']. *)
Fixpoint convert_cells (errors : ErrMode) (conv : Cell -> option Cell) (na : Cell)
  (cells : list Cell) : Exn + list Cell :=
  match cells with
  | [] => inr []
  | c :: rest =>
      match conv c with
      | Some c' =>
          match convert_cells errors conv na rest with
          | inl e => inl e
          | inr rest' => inr (c' :: rest')
          end
      | None =>
          match errors with
          | ErrRaise => inl (ValueError "Unable to parse")
          | ErrCoerce =>
              match convert_cells errors conv na rest with
              | inl e => inl e
              | inr rest' => inr (na :: rest')
              end
          end
      end
  end.

(** The number an object cell holds for [pd.to_numeric]. *)
Definition as_number (c : Cell) : option Q :=
  match c with
  | Num x => Some x
  | Bool b => Some (if b then 1%Q else 0%Q)
  | Str s => number_of_string s
  | NaN | Time _ | NaT => None
  end.

Definition numeric_cell (c : Cell) : option Cell :=
  match c with
  | NaN => Some NaN
  | _ => option_map Num (as_number c)
  end.

Definition iNaT : Z := - 2 ^ 63.

(** [pd.to_numeric(s, errors=...)]: numeric and boolean columns are
    returned as they are, datetimes as their int64 view, object columns
    are converted cell by cell. *)
Definition to_numeric (errors : ErrMode) (s : Series) : Exn + Series :=
  match dtype s with
  | Numeric | BoolT => inr s
  | Datetime =>
      inr (mkSeries Numeric
             (map (fun c => match c with
                            | Time t => Num (inject_Z t)
                            | _ => Num (inject_Z iNaT)
                            end) (values s)))
  | Object =>
      match convert_cells errors numeric_cell NaN (values s) with
      | inl e => inl e
      | inr cs => inr (mkSeries Numeric cs)
      end
  end.

(** The timestamp a cell holds for [pd.to_datetime]. *)
Definition as_datetime (c : Cell) : option Z :=
  match c with
  | Time t => Some t
  | Str s => datetime_of_string s
  | Num x => datetime_of_number x
  | NaN | NaT | Bool _ => None
  end.

Definition datetime_cell (c : Cell) : option Cell :=
  match c with
  | NaN | NaT => Some NaT
  | _ => option_map Time (as_datetime c)
  end.

(** [pd.to_datetime(s, errors=...)] *)
Definition to_datetime (errors : ErrMode) (s : Series) : Exn + Series :=
  match dtype s with
  | Datetime => inr s
  | _ =>
      match convert_cells errors datetime_cell NaT (values s) with
      | inl e => inl e
      | inr cs => inr (mkSeries Datetime cs)
      end
  end.

Definition ns_per_hour : Z := 3600 * 1000000000.

(** The hour field of a timestamp. *)
Definition hour_of (ns : Z) : Z := (ns / ns_per_hour) mod 24.

Definition hour_cell (c : Cell) : Cell :=
  match c with
  | Time t => Num (inject_Z (hour_of t))
  | _ => NaN
  end.

(** [s.dt.hour] *)
Definition dt_hour (s : Series) : Exn + Series :=
  match dtype s with
  | Datetime => inr (mkSeries Numeric (map hour_cell (values s)))
  | _ => inl (AttributeError "Can only use .dt accessor with datetimelike values")
  end.

(** ** Line 34-37: numeric coercion *)

(** [df[name] = pd.to_numeric(df[name], errors='coerce')] *)
Definition coerce_column (name : string) : M unit :=
  d <- get_df ;;
  s <- lift (getitem name d) ;;
  s' <- lift (to_numeric ErrCoerce s) ;;
  put_df (setitem name s' d).

Definition coerce_numeric : M unit :=
  coerce_column "Start_Lng" ;;;
  coerce_column "Start_Lat" ;;;
  coerce_column "Temperature(F)".

(** ** Plotting *)

(** The seaborn / matplotlib calls of one block that draw into the
    current figure (the plot itself, titles, labels, layout). *)
Definition draw (k : PlotKind) (data : DataFrame) : M unit :=
  fun s => match render k data with
           | Some e => Raised e s
           | None => Ok tt s
           end.

Definition add_figure (f : Figure) (s : St) : St :=
  mkSt (df s) (df_cat s) (df_num s) (df_sample s) (shown s ++ [f]) (np_random s).

(** [plt.show()] *)
Definition plt_show (f : Figure) : M unit :=
  fun s => Ok tt (add_figure f s).

Definition plot (k : PlotKind) (data : DataFrame) : M unit :=
  draw k data ;;; plt_show (mkFig k (column_names data)).

(** [if cond: ...] *)
Definition when (b : bool) (m : M unit) : M unit :=
  if b then m else ret tt.

(** A single column handed to a plotting call. *)
Definition frame_of (name : string) (s : Series) : DataFrame :=
  mkDF (length (values s)) [(name, s)].

(** seaborn looks up the names given for [x], [y], [hue] in [data] and
    raises a [ValueError] for one that is not a column. *)
Fixpoint sns_resolve (vars : list string) (d : DataFrame) : M unit :=
  match vars with
  | [] => ret tt
  | v :: rest =>
      if has_column v d then sns_resolve rest d
      else raise (ValueError (String.append "Could not interpret value " v))
  end.

(** Line 43-48 *)
Definition heatmap : M unit :=
  fun s => plot Heatmap (df_num s) s.

(** A guarded plot of one column's value counts (line 50-83). *)
Definition counts_plot (k : PlotKind) (name : string) : M unit :=
  d <- get_df ;;
  when (has_column name d)
       (s <- lift (getitem name d) ;; plot k (frame_of name s)).

Definition city_bar : M unit := counts_plot CityBar "City".
Definition severity_pie : M unit := counts_plot SeverityPie "Severity".
Definition road_pie : M unit := counts_plot RoadPie "Road_Condition".
Definition weather_bar : M unit := counts_plot WeatherBar "Weather_Condition".

(** Line 85-93 *)
Definition time_of_day : M unit :=
  d <- get_df ;;
  s <- lift (getitem "Start_Time" d) ;;
  t <- lift (to_datetime ErrCoerce s) ;;
  put_df (setitem "Start_Time" t d) ;;;
  d <- get_df ;;
  t <- lift (getitem "Start_Time" d) ;;
  h <- lift (dt_hour t) ;;
  put_df (setitem "Hours" h d) ;;;
  d <- get_df ;;
  h <- lift (getitem "Hours" d) ;;
  plot HoursHist (frame_of "Hours" h).

(** Line 95-108.  [sns.scatterplot] resolves its three names in
    [data=df] first.  The loop over [df['State'].unique()] only reads
    [df]: it takes boolean-masked copies and their column means. *)
Definition scatter : M unit :=
  d <- get_df ;;
  sns_resolve ["Start_Lng"; "Start_Lat"; "State"] d ;;;
  draw Scatter d ;;;
  _states <- lift (getitem "State" d) ;;
  plt_show (mkFig Scatter (column_names d)).

(** A guarded seaborn plot of [y] by [x] over [data=df] (line 110-126). *)
Definition by_severity_plot (k : PlotKind) (y : string) : M unit :=
  d <- get_df ;;
  when (has_column "Severity" d && has_column y d)
       (sns_resolve ["Severity"; y] d ;;; plot k d).

Definition temp_box : M unit := by_severity_plot TempBox "Temperature(F)".
Definition wind_violin : M unit := by_severity_plot WindViolin "Wind_Speed(mph)".

(** [s.dropna()] *)
Definition series_dropna (s : Series) : Series :=
  mkSeries (dtype s) (filter (fun c => negb (isna c)) (values s)).

(** Line 128-134 *)
Definition temp_density : M unit :=
  d <- get_df ;;
  s <- lift (getitem "Temperature(F)" d) ;;
  plot TempDensity (frame_of "Temperature(F)" (series_dropna s)).

(** The rows [idx] of [d], in that order. *)
Definition take_rows (idx : list nat) (d : DataFrame) : DataFrame :=
  mkDF (length idx)
       (map (fun c => (fst c,
                       mkSeries (dtype (snd c))
                                (map (fun i => nth i (values (snd c)) NaN) idx)))
            (columns d)).

(** The row labels [df.sample(n=n, random_state=rs)] draws: numpy's
    [choice(len(df), n, replace=False)], the first [n] entries of a
    permutation, by a generator seeded with [rs], or by the global
    generator [g] when [rs] is [None]. *)
Definition sample_rows (g : RngState) (n : nat) (rs : option Z) (d : DataFrame)
  : Exn + list nat :=
  if (nrows d <? n)%nat
  then inl (ValueError "Cannot take a larger sample than population when 'replace=False'")
  else
    let gen := match rs with Some seed => seed_rng seed | None => g end in
    inr (firstn n (permutation gen (nrows d))).

Definition sample (g : RngState) (n : nat) (rs : option Z) (d : DataFrame)
  : Exn + DataFrame :=
  match sample_rows g n rs d with
  | inl e => inl e
  | inr idx => inr (take_rows idx d)
  end.

(** [sample_size = min(len(df), 5000)] *)
Definition sample_size (d : DataFrame) : nat :=
  Nat.min (nrows d) (Z.to_nat 5000).

(** Line 136-150 *)
Definition pairplot : M unit :=
  fun s =>
    (d <- get_df ;;
     smp <- lift (sample (np_random s) (sample_size d) (Some 42) d) ;;
     put_sample smp ;;;
     cols <- lift (select_columns (column_names (df_num s)) smp) ;;
     plot Pairplot (mkDF (nrows smp) cols)) s.

(** ** The script *)

Fixpoint run_steps (steps : list (M unit)) : M unit :=
  match steps with
  | [] => ret tt
  | m :: rest => m ;;; run_steps rest
  end.

(** The visualization steps, in source order. *)
Definition plot_steps : list (PlotKind * M unit) :=
  [ (Heatmap, heatmap); (CityBar, city_bar); (SeverityPie, severity_pie);
    (RoadPie, road_pie); (WeatherBar, weather_bar); (HoursHist, time_of_day);
    (Scatter, scatter); (TempBox, temp_box); (WindViolin, wind_violin);
    (TempDensity, temp_density); (Pairplot, pairplot) ].

(** Line 34-150 *)
Definition script : M unit :=
  run_steps (coerce_numeric :: map snd plot_steps).

(** One run of the program on a file, with the state numpy's global
    generator happens to start in. *)
Definition run (csv : CsvFile) (g : RngState) : Result unit :=
  script (setup csv g).

Definition figures (r : Result unit) : list PlotKind :=
  map kind (shown (final_state r)).

(** The [if ... in df.columns] test in front of a plot; [true] for the
    plots the script makes unconditionally. *)
Definition guard_of (k : PlotKind) (d : DataFrame) : bool :=
  match k with
  | CityBar => has_column "City" d
  | SeverityPie => has_column "Severity" d
  | RoadPie => has_column "Road_Condition" d
  | WeatherBar => has_column "Weather_Condition" d
  | TempBox => has_column "Severity" d && has_column "Temperature(F)" d
  | WindViolin => has_column "Severity" d && has_column "Wind_Speed(mph)" d
  | _ => true
  end.

End Script.

Arguments Ok {R A} a s.
Arguments Raised {R A} e s.

(** * A concrete run

    Small stand-ins for the library parsers and generator, and a
    five-record file, to evaluate the script on. *)
Module Demo.

Definition digit_of (a : Ascii.ascii) : option Z :=
  let n := Z.of_nat (Ascii.nat_of_ascii a) in
  if (48 <=? n) && (n <=? 57) then Some (n - 48) else None.

Fixpoint digits (s : string) (acc : Z) : option Z :=
  match s with
  | EmptyString => Some acc
  | String a rest =>
      match digit_of a with
      | Some d => digits rest (10 * acc + d)
      | None => None
      end
  end.

(** Decimal integers, with an optional minus sign. *)
Definition demo_number (s : string) : option Q :=
  match s with
  | EmptyString => None
  | String "-"%char EmptyString => None
  | String "-"%char rest => option_map (fun z => inject_Z (- z)) (digits rest 0)
  | _ => option_map inject_Z (digits s 0)
  end.

Definition demo_bool (s : string) : option bool :=
  if String.eqb s "True" then Some true
  else if String.eqb s "False" then Some false
  else None.

(** Three known timestamps, in ns since the epoch. *)
Definition demo_datetime (s : string) : option Z :=
  if String.eqb s "2016-02-08 05:46:00" then Some (1454910360 * 1000000000)
  else if String.eqb s "2016-02-08 17:30:00" then Some (1454952600 * 1000000000)
  else if String.eqb s "2016-02-09 23:05:10" then Some (1455059110 * 1000000000)
  else None.

#[export] Instance demo_parsing : Parsing := {|
  is_na_field := fun s => String.eqb s "";
  number_of_string := demo_number;
  bool_of_string := demo_bool;
  datetime_of_string := demo_datetime;
  datetime_of_number := fun x => Some (Qfloor x)
|}.

(** A generator with two behaviours: even states leave the rows in
    order, odd states reverse them. *)
Definition demo_permutation (g : Z) (k : nat) : list nat :=
  if Z.even g then seq 0 k else rev (seq 0 k).

#[export] Instance demo_rng : Rng := {|
  RngState := Z;
  seed_rng := fun seed => seed;
  permutation := demo_permutation;
  permutation_perm := fun g k =>
    match Z.even g as b
      return Permutation (if b then seq 0 k else rev (seq 0 k)) (seq 0 k)
    with
    | true => Permutation_refl (seq 0 k)
    | false => Permutation_sym (Permutation_rev (seq 0 k))
    end
|}.

(** Two states numpy's global generator may start in. *)
Definition seed0 : @RngState demo_rng := 0.
Definition seed1 : @RngState demo_rng := 1.

(** A backend that draws everything. *)
Definition demo_render (k : PlotKind) (d : DataFrame) : option Exn := None.

Definition demo_header : list string :=
  ["ID"; "Severity"; "Start_Time"; "Start_Lat"; "Start_Lng"; "City"; "State";
   "Temperature(F)"; "Wind_Speed(mph)"; "Weather_Condition"; "Road_Condition";
   "Airport_Code"; "Wind_Chill(F)"].

Definition demo_records : list (list string) :=
  [ ["A-1"; "3"; "2016-02-08 05:46:00"; "39"; "-84"; "Dayton"; "OH";
     "36"; "3"; "Light Rain"; "Wet"; "KFFO"; ""];
    ["A-2"; "2"; "2016-02-08 17:30:00"; "39"; "-82"; "Columbus"; "OH";
     "warm"; "5"; "Overcast"; "Dry"; "KCMH"; ""];
    ["A-3"; "2"; "not recorded"; "34"; "-118"; "Los Angeles"; "CA";
     "61"; ""; "Clear"; "Dry"; "KCQT"; "58"];
    ["A-4"; "4"; "2016-02-09 23:05:10"; "east"; "-81"; "Dayton"; "OH";
     "35"; "7"; "Snow"; "Icy"; "KDAY"; ""];
    ["A-5"; "2"; ""; "40"; "-83"; "Columbus"; "OH";
     ""; "4"; "Clear"; "Dry"; "KCMH"; ""] ].

Definition demo_csv : CsvFile := mkCsv demo_header demo_records.

Fixpoint remove_nth {A} (j : nat) (l : list A) : list A :=
  match l, j with
  | [], _ => []
  | _ :: rest, O => rest
  | a :: rest, S j' => a :: remove_nth j' rest
  end.

Fixpoint index_of (name : string) (l : list string) : nat :=
  match l with
  | [] => O
  | k :: rest => if String.eqb name k then O else S (index_of name rest)
  end.

(** The file with one of its columns taken out. *)
Definition without (name : string) (csv : CsvFile) : CsvFile :=
  let j := index_of name (header csv) in
  mkCsv (remove_nth j (header csv)) (map (remove_nth j) (records csv)).



End Demo.

(** * Vocabulary of the properties *)

(** The number a cell holds once it sits in a numeric column. *)
Definition cell_number (c : Cell) : option Q :=
  match c with
  | Num x => Some x
  | Bool b => Some (if b then 1%Q else 0%Q)
  | _ => None
  end.

(** What the parser can put into a column of each dtype. *)
Definition csv_typed (s : Series) : Prop :=
  match dtype s with
  | Numeric => Forall (fun c => c = NaN \/ exists x, c = Num x) (values s)
  | BoolT => Forall (fun c => exists b, c = Bool b) (values s)
  | Object => True
  | Datetime => False
  end.

Definition frame_typed (d : DataFrame) : Prop :=
  Forall (fun c => csv_typed (snd c)) (columns d).

(** The columns line 35-37 assign. *)
Definition coerced_names : list string :=
  ["Start_Lng"; "Start_Lat"; "Temperature(F)"].

(** The plots in front of the geographic scatter. *)
Definition before_scatter : list PlotKind :=
  [Heatmap; CityBar; SeverityPie; RoadPie; WeatherBar; HoursHist].

(** [l1] is [l2] with some elements left out. *)
Inductive Subseq {A : Type} : list A -> list A -> Prop :=
| Subseq_nil : forall l, Subseq [] l
| Subseq_skip : forall x l1 l2, Subseq l1 l2 -> Subseq l1 (x :: l2)
| Subseq_take : forall x l1 l2, Subseq l1 l2 -> Subseq (x :: l1) (x :: l2).

Section Vocabulary.

Context {P : Parsing} {R : Rng}.
Variable render : PlotKind -> DataFrame -> option Exn.



(** [to_numeric] under [errors='coerce'] always returns a column. *)
Definition coerced (s : Series) : Series :=
  match dtype s with
  | Numeric | BoolT => s
  | Datetime =>
      mkSeries Numeric
        (map (fun c => match c with
                       | Time t => Num (inject_Z t)
                       | _ => Num (inject_Z iNaT)
                       end) (values s))
  | Object =>
      mkSeries Numeric
        (map (fun c => match numeric_cell c with Some c' => c' | None => NaN end)
             (values s))
  end.

(** What one visualization step [k] may do to the state. *)
Definition step_post (k : PlotKind) (s : St) (r : Result unit) : Prop :=
  let s' := final_state r in
  df_num s' = df_num s /\
  nrows (df s') = nrows (df s) /\
  (k <> HoursHist -> df s' = df s) /\
  (forall name, name <> "Hours" -> name <> "Start_Time" ->
     lookup name (columns (df s')) = lookup name (columns (df s))) /\
  (forall name, name <> "Hours" ->
     has_column name (df s') = has_column name (df s)) /\
  ((shown s' = shown s /\ (completed r = true -> guard_of k (df s) = false)) \/
   (exists f, kind f = k /\ shown s' = shown s ++ [f] /\
              completed r = true /\ guard_of k (df s) = true /\
              (k = Heatmap \/ k = Pairplot -> uses f = column_names (df_num s)))).

(** The steps that leave everything but the list of figures alone. *)
Definition plain_outcome (k : PlotKind) (s : St) (r : Result unit) : Prop :=
  (exists e, r = Raised e s) \/
  (r = Ok tt s /\ guard_of k (df s) = false) \/
  (exists f, r = Ok tt (add_figure f s) /\ kind f = k /\
             guard_of k (df s) = true /\
             (k = Heatmap \/ k = Pairplot -> uses f = column_names (df_num s))).

(** [to_datetime] under [errors='coerce'] always returns a column. *)
Definition parsed (s : Series) : Series :=
  match dtype s with
  | Datetime => s
  | _ =>
      mkSeries Datetime
        (map (fun c => match datetime_cell c with Some c' => c' | None => NaT end)
             (values s))
  end.

Definition hours (s : Series) : Series :=
  mkSeries Numeric (map hour_cell (values (parsed s))).

(** The state after line 86-87, when 'Start_Time' is a column. *)
Definition with_hours (old : Series) (s : St) : St :=
  mkSt (setitem "Hours" (hours old) (setitem "Start_Time" (parsed old) (df s)))
       (df_cat s) (df_num s) (df_sample s) (shown s) (np_random s).

(** The rows line 139 draws. *)
Definition drawn_rows (d : DataFrame) : list nat :=
  firstn (sample_size d) (permutation (seed_rng 42) (nrows d)).

Definition with_sample (smp : DataFrame) (s : St) : St :=
  mkSt (df s) (df_cat s) (df_num s) (Some smp) (shown s) (np_random s).

(** What a sequence of visualization steps does, from any state. *)
Definition run_post (kinds : list PlotKind) (s : St) (r : Result unit) : Prop :=
  let s' := final_state r in
  df_num s' = df_num s /\
  nrows (df s') = nrows (df s) /\
  (forall name, name <> "Hours" ->
     has_column name (df s') = has_column name (df s)) /\
  exists fs,
    shown s' = shown s ++ fs /\
    Subseq (map kind fs) kinds /\
    (completed r = true ->
     map kind fs = filter (fun k => guard_of k (df s)) kinds) /\
    (forall f, In f fs -> kind f = Heatmap \/ kind f = Pairplot ->
               uses f = column_names (df_num s)).

(** The statements of the script, line 34-150, as a list. *)
Definition statements : list (M unit) :=
  coerce_numeric :: map snd (plot_steps render).


End Vocabulary.

(** * The counts behind the bar and pie charts

    Lines 53, 63, 71 and 79 plot [df[name].value_counts()], the first
    and the last cut down by [.nlargest(10)]. *)

(** [a == b] on two cells, as Python compares the values they hold: a
    missing value equals nothing, [True] equals [1]. *)
Definition cell_eqb (a b : Cell) : bool :=
  match a, b with
  | Str x, Str y => String.eqb x y
  | Time x, Time y => Z.eqb x y
  | _, _ =>
      match cell_number a, cell_number b with
      | Some x, Some y => Qeq_bool x y
      | _, _ => false
      end
  end.

(** One more occurrence of [c] in a table of counts; a new value goes
    to the end. *)
Fixpoint bump (c : Cell) (acc : list (Cell * nat)) : list (Cell * nat) :=
  match acc with
  | [] => [(c, 1%nat)]
  | (v, n) :: rest =>
      if cell_eqb c v then (v, S n) :: rest else (v, n) :: bump c rest
  end.

(** The occurrences of every non-missing value, in order of first
    appearance ([dropna=True]). *)
Definition tally (cells : list Cell) : list (Cell * nat) :=
  fold_left (fun acc c => if isna c then acc else bump c acc) cells [].

(** Stable insertion into a list sorted by falling count. *)
Fixpoint insert_desc (p : Cell * nat) (l : list (Cell * nat)) : list (Cell * nat) :=
  match l with
  | [] => [p]
  | q :: rest =>
      if (snd q <=? snd p)%nat then p :: q :: rest
      else q :: insert_desc p rest
  end.

Definition sort_desc (l : list (Cell * nat)) : list (Cell * nat) :=
  fold_right insert_desc [] l.

(** [s.value_counts()]: the counts, largest first. *)
Definition value_counts (s : Series) : list (Cell * nat) :=
  sort_desc (tally (values s)).

(** [counts.nlargest(n)]: the [n] largest, largest first, the first
    ones on ties. *)
Definition nlargest (n : nat) (counts : list (Cell * nat)) : list (Cell * nat) :=
  firstn n (sort_desc counts).

(** [df[name].value_counts().nlargest(10)] of line 53 and 79. *)
Definition top_counts (s : Series) : list (Cell * nat) :=
  nlargest 10 (value_counts s).

Definition total (counts : list (Cell * nat)) : nat :=
  fold_right (fun p acc => (snd p + acc)%nat) O counts.

(** Sorted by falling count. *)
Definition falling (l : list (Cell * nat)) : Prop :=
  StronglySorted (fun p q => (snd q <= snd p)%nat) l.

(** The number of cells of [cells] equal to [v]. *)
Definition occurrences (v : Cell) (cells : list Cell) : nat :=
  length (filter (fun c => cell_eqb c v) cells).

(** No two of the values are equal. *)
Fixpoint distinct (keys : list Cell) : Prop :=
  match keys with
  | [] => True
  | k :: rest => Forall (fun k' => cell_eqb k k' = false) rest /\ distinct rest
  end.

(** The first name of [names] that is not a column of [d]. *)
Definition first_absent (names : list string) (d : DataFrame) : option string :=
  find (fun n => negb (has_column n d)) names.

(** A cell that is missing or holds a number. *)
Definition numeric_or_missing (c : Cell) : Prop :=
  c = NaN \/ exists x, cell_number c = Some x.


(** * The state labels of the scatter plot

    Line 102-105 walks over [df['State'].unique()] and, for each value,
    takes the rows [df[df['State'] == state]] to place the label. *)

(** Whether [unique] takes two cells for one value: equal values, or
    the same kind of missing value. *)
Definition same_value (a b : Cell) : bool :=
  match a, b with
  | NaN, NaN => true
  | NaT, NaT => true
  | _, _ => cell_eqb a b
  end.

Fixpoint unique_from (seen : list Cell) (cells : list Cell) : list Cell :=
  match cells with
  | [] => []
  | c :: rest =>
      if existsb (same_value c) seen then unique_from seen rest
      else c :: unique_from (c :: seen) rest
  end.

(** [s.unique()]: the values in order of first appearance, a missing
    value among them. *)
Definition unique (s : Series) : list Cell := unique_from [] (values s).

(** The row labels a boolean mask keeps, counting from [i]. *)
Fixpoint true_rows (mask : list bool) (i : nat) : list nat :=
  match mask with
  | [] => []
  | b :: rest => if b then i :: true_rows rest (S i) else true_rows rest (S i)
  end.

(** [s == v] *)
Definition eq_mask (s : Series) (v : Cell) : list bool :=
  map (fun c => cell_eqb c v) (values s).

(** The rows of [df[s == v]]. *)
Definition rows_where (s : Series) (v : Cell) : list nat :=
  true_rows (eq_mask s v) 0.

(** [state_data = df[df['State'] == state]] *)
Definition state_data (d : DataFrame) (states : Series) (state : Cell) : DataFrame :=
  take_rows (rows_where states state) d.

(** No two of the labels are taken for one value. *)
Fixpoint unlike (labels : list Cell) : Prop :=
  match labels with
  | [] => True
  | v :: rest => Forall (fun v' => same_value v v' = false) rest /\ unlike rest
  end.


(** * More concrete runs *)
Module MoreDemo.

Import Demo.

(** A file whose airport codes are numbers. *)
Definition coded_csv : CsvFile :=
  mkCsv
    ["Start_Time"; "Start_Lat"; "Start_Lng"; "State"; "Temperature(F)";
     "Airport_Code"]
    [ ["2016-02-08 05:46:00"; "39"; "-84"; "OH"; "36"; "101"];
      ["2016-02-08 17:30:00"; "39"; "-82"; "OH"; "40"; "102"] ].


(** The state the temperature boxplot of the demo run starts in. *)
Definition before_boxplot : St :=
  final_state (run_steps (firstn 8 (statements demo_render)) (setup demo_csv seed0)).

(** 'Temperature(F)' of the demo run after line 37. *)
Definition demo_temperature : Series :=
  mkSeries Numeric
    [Num (inject_Z 36); NaN; Num (inject_Z 61); Num (inject_Z 35); NaN].

(** 'City' of the demo file. *)
Definition demo_city : Series :=
  mkSeries Object
    [Str "Dayton"; Str "Columbus"; Str "Los Angeles"; Str "Dayton";
     Str "Columbus"].


(** 'State' of the demo file. *)
Definition demo_state : Series :=
  mkSeries Object [Str "OH"; Str "OH"; Str "CA"; Str "OH"; Str "OH"].


End MoreDemo.

(** * Properties *)

(** ** The pruning threshold in binary64 *)

Section RoundingFacts.

Import Binary64.

Lemma rne_le (a b C : Z) : 0 < b -> a <= C * b -> rne a b <= C.
Proof.
  intros Hb Ha. unfold rne.
  pose proof (Z.div_mod a b ltac:(lia)) as Hdm.
  pose proof (Z.mod_pos_bound a b Hb) as Hr.
  destruct (2 * (a mod b) ?= b) eqn:Hc;
    [apply Z.compare_eq_iff in Hc | apply Z.compare_lt_iff in Hc
    | apply Z.compare_gt_iff in Hc];
    try destruct (Z.even (a / b)); nia.
Qed.

Lemma rne_ge (a b C : Z) : 0 < b -> C * b <= a -> C <= rne a b.
Proof.
  intros Hb Ha. unfold rne.
  pose proof (Z.div_mod a b ltac:(lia)) as Hdm.
  pose proof (Z.mod_pos_bound a b Hb) as Hr.
  destruct (2 * (a mod b) ?= b) eqn:Hc;
    try destruct (Z.even (a / b)); nia.
Qed.

Lemma rne_1 (a : Z) : rne a 1 = a.
Proof.
  unfold rne. rewrite Z.mod_1_r, Z.div_1_r. reflexivity.
Qed.

Lemma ilog2_le (a b : Z) : ilog2 a b <= Z.log2 a - Z.log2 b.
Proof.
  unfold ilog2.
  set (d := Z.log2 a - Z.log2 b).
  destruct (if 0 <=? d then a <? b * 2 ^ d else a * 2 ^ (- d) <? b); lia.
Qed.

(** Conversion of a positive int below 2^52 is exact. *)
Lemma of_int_pos (n : Z) :
  0 < n < 2 ^ 52 ->
  of_int n = mk (n * 2 ^ (52 - Z.log2 n)) (Z.log2 n - 52).
Proof.
  intros [Hpos Hlt].
  assert (HL : 0 <= Z.log2 n < 52).
  { split; [apply Z.log2_nonneg | apply Z.log2_lt_pow2; lia]. }
  pose proof (Z.log2_spec n Hpos) as [Hlo _].
  unfold of_int, round.
  destruct (Z.eqb_spec n 0) as [->|_]; [lia|].
  assert (Hi : ilog2 (Z.abs n) 1 = Z.log2 n).
  { unfold ilog2. rewrite Z.abs_eq by lia.
    change (Z.log2 1) with 0. rewrite Z.sub_0_r.
    destruct (Z.leb_spec 0 (Z.log2 n)); [|lia].
    destruct (Z.ltb_spec n (1 * 2 ^ Z.log2 n)); lia. }
  rewrite Hi. unfold emin.
  rewrite Z.max_l by lia.
  destruct (Z.leb_spec 0 (Z.log2 n - 52)); [lia|].
  rewrite rne_1. f_equal. f_equal. f_equal. lia.
Qed.

Lemma of_int_denotes (c : Z) :
  0 <= c < 2 ^ 52 -> denotes (of_int c) c = true.
Proof.
  intros [H0 Hlt].
  destruct (Z.eq_dec c 0) as [->|Hne]; [reflexivity|].
  rewrite of_int_pos by lia.
  assert (HL : 0 <= Z.log2 c < 52).
  { split; [apply Z.log2_nonneg | apply Z.log2_lt_pow2; lia]. }
  unfold denotes. cbn [expo mant].
  destruct (Z.leb_spec 0 (Z.log2 c - 52)); [lia|].
  apply Z.eqb_eq. f_equal. f_equal. lia.
Qed.

(** Comparing with an exactly converted int is the real comparison. *)
Lemma leb_denotes (t f : float) (c : Z) :
  denotes f c = true -> leb t f = le_int t c.
Proof.
  destruct t as [mt et], f as [mf ef].
  unfold denotes, leb, le_int. cbn [expo mant]. intros Hd.
  assert (Hpow : forall x y, 0 <= x -> 0 <= y -> 2 ^ (x + y) = 2 ^ x * 2 ^ y).
  { intros. apply Z.pow_add_r; assumption. }
  assert (Hp : forall x, 0 < 2 ^ x \/ x < 0).
  { intros x. destruct (Z_lt_le_dec x 0); [right; lia | left; apply Z.pow_pos_nonneg; lia]. }
  destruct (Z.leb_spec 0 ef) as [Hf|Hf];
    [apply Z.eqb_eq in Hd | apply Z.eqb_eq in Hd];
    destruct (Z.leb_spec 0 et) as [Ht|Ht];
    destruct (Z.min_spec et ef) as [[Hlt He]|[Hle He]]; rewrite He;
    rewrite ?Z.sub_diag; change (2 ^ 0) with 1; rewrite ?Z.mul_1_r; subst;
    apply eq_true_iff_eq; rewrite !Z.leb_le.
  - (* 0 <= et < ef *)
    replace ef with ((ef - et) + et) at 2 by lia.
    rewrite Hpow by lia.
    destruct (Hp et) as [Hq|]; [|lia]. destruct (Hp (ef - et)) as [Hq'|]; [|lia]. split; intro; nia.
  - (* 0 <= ef <= et *)
    replace et with ((et - ef) + ef) at 2 by lia.
    rewrite Hpow by lia.
    destruct (Hp ef) as [Hq|]; [|lia]. destruct (Hp (et - ef)) as [Hq'|]; [|lia]. split; intro; nia.
  - (* et < 0 <= ef *)
    replace (ef - et) with (ef + - et) by lia.
    rewrite Hpow by lia. rewrite Z.mul_assoc. reflexivity.
  - lia.
  - lia.
  - (* ef < 0 <= et *)
    replace (et - ef) with (et + - ef) by lia.
    rewrite Hpow by lia.
    destruct (Hp (- ef)) as [Hq|]; [|lia]. split; intro; nia.
  - (* et < ef < 0 *)
    replace (- et) with ((ef - et) + - ef) by lia.
    rewrite Hpow by lia. rewrite <- Z.mul_assoc, (Z.mul_comm (2 ^ (- ef))), Z.mul_assoc.
    reflexivity.
  - (* ef <= et < 0 *)
    replace (- ef) with ((et - ef) + - et) by lia.
    rewrite Hpow by lia.
    destruct (Hp (et - ef)) as [Hq|]; [|lia]. split; intro; nia.
Qed.

(** [1 - 0.3] is the double [0.7]. *)
Lemma keep_fraction :
  sub (of_int 1) missing_threshold = mk 6305039478318694 (-53).
Proof. vm_compute. reflexivity. Qed.

(** [90 * (1 - 0.3)] is [62.99999999999999], just below 63. *)
Example thresh_of_90 : thresh_of 90 = mk 8866461766385663 (-47).
Proof. vm_compute. reflexivity. Qed.

(** At up to 100000 rows the double threshold separates the integer
    counts exactly where the rational bound [7 n <= 10 c] does. *)
Lemma thresh_le_int (n c : Z) :
  0 <= n <= 100000 ->
  (le_int (thresh_of n) c = true <-> 7 * n <= 10 * c).
Proof.
  intros [Hn0 Hn1].
  destruct (Z.eq_dec n 0) as [->|Hne].
  { change (thresh_of 0) with (mk 0 0). unfold le_int. cbn [expo mant].
    change (0 <=? 0) with true. cbv iota. rewrite Z.leb_le. lia. }
  assert (Hn52 : 0 < n < 2 ^ 52) by (change (2 ^ 52) with 4503599627370496; lia).
  set (L := Z.log2 n).
  assert (HL : 0 <= L <= 16).
  { split; [apply Z.log2_nonneg|].
    assert (L < 17); [|lia]. apply Z.log2_lt_pow2; [lia|]. change (2 ^ 17) with 131072. lia. }
  pose proof (Z.log2_spec n ltac:(lia)) as [_ Hhi]. fold L in Hhi.
  set (B := 2 ^ (52 - L)).
  assert (HB : 0 < B) by (apply Z.pow_pos_nonneg; lia).
  assert (HnB : n * B < 2 ^ 53).
  { replace 53 with (Z.succ L + (52 - L)) by lia.
    rewrite Z.pow_add_r by lia. fold B. nia. }
  unfold thresh_of. rewrite keep_fraction, of_int_pos by assumption.
  fold L B. unfold mul, round_dyadic. cbn [expo mant].
  destruct (Z.leb_spec 0 (L - 52 + -53)); [lia|].
  set (a := n * B * 6305039478318694).
  set (b := 2 ^ (- (L - 52 + -53))).
  assert (Ha : 0 < a) by (unfold a; nia).
  assert (Hb : b = 9007199254740992 * B).
  { unfold b, B. replace (- (L - 52 + -53)) with (53 + (52 - L)) by lia.
    rewrite Z.pow_add_r by lia. reflexivity. }
  assert (Hb0 : 0 < b) by lia.
  unfold round. destruct (Z.eqb_spec a 0); [lia|].
  set (e := Z.max (ilog2 (Z.abs a) b - 52) emin).
  assert (He : e <= -4).
  { unfold e, emin. apply Z.max_lub; [|lia].
    pose proof (ilog2_le (Z.abs a) b) as Hi.
    rewrite Z.abs_eq in * by lia.
    assert (Hla : Z.log2 a < 106).
    { apply Z.log2_lt_pow2; [lia|].
      change (2 ^ 106) with (2 ^ 53 * 9007199254740992). unfold a.
      change (2 ^ 53) with 9007199254740992 in *. nia. }
    assert (Hlb : Z.log2 b = 105 - L).
    { unfold b. rewrite Z.log2_pow2 by lia. lia. }
    lia. }
  destruct (Z.leb_spec 0 e); [lia|].
  unfold le_int. cbn [expo mant].
  destruct (Z.leb_spec 0 e); [lia|].
  set (E := 2 ^ (- e)).
  assert (HE : 16 <= E).
  { unfold E. change 16 with (2 ^ 4). apply Z.pow_le_mono_r; lia. }
  rewrite Z.leb_le. split.
  - (* the double bound holds: the count reaches 70 per cent *)
    intros Hle.
    destruct (Z_le_gt_dec (7 * n) (10 * c)) as [|Hgt]; [assumption|exfalso].
    assert (Hge : c * E + 1 <= rne (a * E) b); [|lia].
    apply rne_ge; [assumption|].
    rewrite Hb. unfold a.
    assert (HD : (c * E + 1) * 9007199254740992 <= n * 6305039478318694 * E) by nia.
    replace ((c * E + 1) * (9007199254740992 * B))
      with ((c * E + 1) * 9007199254740992 * B) by ring.
    replace (n * B * 6305039478318694 * E)
      with (n * 6305039478318694 * E * B) by ring.
    apply Z.mul_le_mono_nonneg_r; lia.
  - intros Hle. apply rne_le; [assumption|].
    rewrite Hb. unfold a.
    assert (HD : n * 6305039478318694 <= c * 9007199254740992) by lia.
    replace (n * B * 6305039478318694 * E)
      with (n * 6305039478318694 * (B * E)) by ring.
    replace (c * E * (9007199254740992 * B))
      with (c * 9007199254740992 * (B * E)) by ring.
    apply Z.mul_le_mono_nonneg_r; nia.
Qed.

(** The test [count >= thresh] of [dropna], on a frame of at most
    100000 rows. *)
Lemma keep_test_exact (n c : Z) :
  0 <= n <= 100000 -> 0 <= c <= 100000 ->
  (leb (thresh_of n) (of_int c) = true <-> 7 * n <= 10 * c).
Proof.
  intros Hn Hc.
  rewrite (leb_denotes _ _ c).
  - apply thresh_le_int; assumption.
  - apply of_int_denotes. change (2 ^ 52) with 4503599627370496. lia.
Qed.

End RoundingFacts.


(** ** Columns, lookup and assignment *)

Lemma has_column_lookup (name : string) (d : DataFrame) :
  has_column name d =
  match lookup name (columns d) with Some _ => true | None => false end.
Proof.
  unfold has_column, column_names.
  induction (columns d) as [|[k s] rest IH]; simpl; [reflexivity|].
  destruct (String.eqb name k); simpl; [reflexivity|exact IH].
Qed.

Lemma lookup_In (name : string) (cols : list (string * Series)) (s : Series) :
  lookup name cols = Some s -> In (name, s) cols.
Proof.
  induction cols as [|[k v] rest IH]; simpl; [discriminate|].
  destruct (String.eqb_spec name k) as [->|Hne].
  - intros [= ->]. left. reflexivity.
  - intros H. right. apply IH, H.
Qed.

Lemma lookup_replace_same (name : string) (s : Series) (cols : list (string * Series)) :
  lookup name (replace_column name s cols) = Some s.
Proof.
  induction cols as [|[k v] rest IH]; simpl.
  - rewrite String.eqb_refl. reflexivity.
  - destruct (String.eqb name k) eqn:E; simpl; rewrite E; [reflexivity|exact IH].
Qed.

Lemma lookup_replace_other (name other : string) (s : Series)
  (cols : list (string * Series)) :
  other <> name ->
  lookup other (replace_column name s cols) = lookup other cols.
Proof.
  intros Hne.
  induction cols as [|[k v] rest IH]; simpl.
  - destruct (String.eqb_spec other name); [contradiction|reflexivity].
  - destruct (String.eqb_spec name k) as [->|Hk]; simpl.
    + destruct (String.eqb_spec other k); [contradiction|reflexivity].
    + rewrite IH. reflexivity.
Qed.

Lemma names_replace_present (name : string) (s old : Series)
  (cols : list (string * Series)) :
  lookup name cols = Some old ->
  map fst (replace_column name s cols) = map fst cols.
Proof.
  induction cols as [|[k v] rest IH]; simpl; [discriminate|].
  destruct (String.eqb name k); simpl; [reflexivity|].
  intros H. rewrite (IH H). reflexivity.
Qed.


Lemma count_missing (s : Series) :
  (count s + missing s = length (values s))%nat.
Proof.
  unfold count, missing.
  induction (values s) as [|c rest IH]; simpl; [reflexivity|].
  destruct (isna c); simpl; lia.
Qed.

(** ** Loading *)

Section Loading.

Context {P : Parsing}.

Lemma nrows_limit_value : Z.of_nat nrows_limit = 100000.
Proof. unfold nrows_limit. apply Z2Nat.id. lia. Qed.

Lemma all_cells_length {A} (conv : A -> option Cell) (l : list A) (cs : list Cell) :
  all_cells conv l = Some cs -> length cs = length l.
Proof.
  revert cs. induction l as [|a rest IH]; simpl; intros cs H.
  - injection H as <-. reflexivity.
  - destruct (conv a); [|discriminate].
    destruct (all_cells conv rest) as [cs'|]; [|discriminate].
    injection H as <-. simpl. rewrite (IH cs' eq_refl). reflexivity.
Qed.

Lemma infer_column_length (fields : list (option string)) :
  length (values (infer_column fields)) = length fields.
Proof.
  unfold infer_column. destruct fields as [|f rest]; [reflexivity|].
  destruct (all_cells number_cell (f :: rest)) as [cs|] eqn:E1.
  - simpl. apply (all_cells_length _ _ _ E1).
  - destruct (all_cells bool_cell (f :: rest)) as [cs|] eqn:E2.
    + simpl. apply (all_cells_length _ _ _ E2).
    + simpl. rewrite length_map. reflexivity.
Qed.

Lemma read_csv_nrows (csv : CsvFile) (n : nat) :
  nrows (read_csv csv n) = Nat.min n (length (records csv)).
Proof. unfold read_csv. simpl. apply length_firstn. Qed.

Lemma read_csv_well_formed (csv : CsvFile) (n : nat) :
  well_formed (read_csv csv n).
Proof.
  unfold well_formed, read_csv. simpl.
  apply Forall_forall. intros c Hc.
  apply in_map_iff in Hc. destruct Hc as [jn [<- _]]. simpl.
  rewrite infer_column_length, length_map. reflexivity.
Qed.

(** C2, at the load itself. *)
Lemma read_csv_bounded (csv : CsvFile) :
  Z.of_nat (nrows (read_csv csv nrows_limit)) <= 100000.
Proof.
  rewrite read_csv_nrows, <- nrows_limit_value. lia.
Qed.

End Loading.

(** ** Pruning *)

Section Pruning.

Context {P : Parsing}.

Lemma count_le_length (s : Series) : (count s <= length (values s))%nat.
Proof. pose proof (count_missing s). lia. Qed.

(** On a well-formed frame of at most 100000 rows [dropna] keeps a
    column exactly when 70 per cent of its cells are present. *)
Lemma prune_keeps_iff (d : DataFrame) (c : string * Series) :
  well_formed d ->
  Z.of_nat (nrows d) <= 100000 ->
  In c (columns d) ->
  (In c (columns (prune_missing d)) <->
   7 * Z.of_nat (nrows d) <= 10 * Z.of_nat (count (snd c))).
Proof.
  intros Hwf Hn Hc.
  unfold prune_missing, dropna_columns, prune_thresh. cbn [columns].
  rewrite filter_In.
  assert (Hlen : length (values (snd c)) = nrows d).
  { unfold well_formed in Hwf. rewrite Forall_forall in Hwf. apply Hwf, Hc. }
  pose proof (count_le_length (snd c)) as Hcnt.
  rewrite keep_test_exact by lia.
  tauto.
Qed.

(** C1.  After the pruning of line 23 a column of the loaded dataframe
    is retained if and only if its count of non-missing values is at
    least 0.7 times the number of rows; equivalently exactly the columns
    with more than 30 per cent missing values are dropped (exactly 30
    per cent is kept).  No row is removed: the frame has as many rows as
    before and a retained column is the loaded column, cell for cell. *)
Theorem prune_missing_threshold (csv : CsvFile) :
  let d := read_csv csv nrows_limit in
  let d' := prune_missing d in
  nrows d' = nrows d /\
  (forall c, In c (columns d') -> In c (columns d)) /\
  (forall c, In c (columns d) ->
     (In c (columns d') <->
      7 * Z.of_nat (nrows d) <= 10 * Z.of_nat (count (snd c))) /\
     (In c (columns d') <->
      10 * Z.of_nat (missing (snd c)) <= 3 * Z.of_nat (nrows d))).
Proof.
  intros d d'. split; [reflexivity|]. split.
  - intros c Hc. unfold d', prune_missing, dropna_columns in Hc.
    cbn [columns] in Hc. apply filter_In in Hc. tauto.
  - intros c Hc.
    pose proof (read_csv_well_formed csv nrows_limit) as Hwf. fold d in Hwf.
    pose proof (read_csv_bounded csv) as Hb. fold d in Hb.
    pose proof (prune_keeps_iff d c Hwf Hb Hc) as Hk. fold d' in Hk.
    assert (Hlen : length (values (snd c)) = nrows d).
    { unfold well_formed in Hwf. rewrite Forall_forall in Hwf. apply Hwf, Hc. }
    pose proof (count_missing (snd c)) as Hcm.
    split; [exact Hk|]. rewrite Hk. lia.
Qed.

End Pruning.

(** ** Numeric coercion *)

Section Coercion.

Context {P : Parsing} {R : Rng}.

Lemma convert_cells_coerce (conv : Cell -> option Cell) (na : Cell) (cells : list Cell) :
  convert_cells ErrCoerce conv na cells =
  inr (map (fun c => match conv c with Some c' => c' | None => na end) cells).
Proof.
  induction cells as [|c rest IH]; simpl; [reflexivity|].
  rewrite IH. destruct (conv c); reflexivity.
Qed.

Lemma to_numeric_coerce (s : Series) :
  to_numeric ErrCoerce s = inr (coerced s).
Proof.
  unfold to_numeric, coerced. destruct (dtype s); try reflexivity.
  rewrite convert_cells_coerce. reflexivity.
Qed.

Lemma coerced_typed (s : Series) : csv_typed s -> csv_typed (coerced s).
Proof.
  unfold csv_typed, coerced.
  destruct (dtype s) eqn:E; simpl; try rewrite E; auto; [|contradiction].
  intros _. apply Forall_forall. intros c Hc.
  apply in_map_iff in Hc. destruct Hc as [c0 [<- _]].
  destruct c0; simpl; eauto.
  destruct (number_of_string s0); simpl; eauto.
Qed.


Lemma coerced_length (s : Series) :
  length (values (coerced s)) = length (values s).
Proof.
  unfold coerced. destruct (dtype s); simpl; rewrite ?length_map; reflexivity.
Qed.

Lemma coerce_column_present (name : string) (s : St) (old : Series) :
  lookup name (columns (df s)) = Some old ->
  coerce_column name s =
  Ok tt (mkSt (setitem name (coerced old) (df s)) (df_cat s) (df_num s)
              (df_sample s) (shown s) (np_random s)).
Proof.
  intros H. unfold coerce_column, bind, get_df, lift, getitem.
  rewrite H. simpl. rewrite to_numeric_coerce. reflexivity.
Qed.

Lemma coerce_column_absent (name : string) (s : St) :
  lookup name (columns (df s)) = None ->
  coerce_column name s = Raised (KeyError name) s.
Proof.
  intros H. unfold coerce_column, bind, get_df, lift, getitem.
  rewrite H. reflexivity.
Qed.

Lemma replace_typed (name : string) (s : Series) (cols : list (string * Series)) :
  csv_typed s ->
  Forall (fun c => csv_typed (snd c)) cols ->
  Forall (fun c => csv_typed (snd c)) (replace_column name s cols).
Proof.
  intros Hs. induction 1 as [|[k v] rest Hv Hrest IH]; simpl.
  - constructor; [exact Hs|constructor].
  - destruct (String.eqb name k); constructor; simpl; auto.
Qed.

Lemma lookup_typed (name : string) (d : DataFrame) (s : Series) :
  frame_typed d -> lookup name (columns d) = Some s -> csv_typed s.
Proof.
  unfold frame_typed. rewrite Forall_forall. intros H Hl.
  apply (H (name, s)), lookup_In, Hl.
Qed.

End Coercion.

Section CoercionStep.

Context {P : Parsing} {R : Rng}.

Lemma number_cells_typed (fields : list (option string)) (cs : list Cell) :
  all_cells number_cell fields = Some cs ->
  Forall (fun c => c = NaN \/ exists x, c = Num x) cs.
Proof.
  revert cs. induction fields as [|f rest IH]; simpl; intros cs H.
  - injection H as <-. constructor.
  - destruct (number_cell f) as [c|] eqn:Ec; [|discriminate].
    destruct (all_cells number_cell rest) as [cs'|]; [|discriminate].
    injection H as <-. constructor; [|apply IH; reflexivity].
    unfold number_cell in Ec. destruct f as [t|].
    + destruct (number_of_string t); [|discriminate].
      injection Ec as <-. right. eauto.
    + injection Ec as <-. left. reflexivity.
Qed.

Lemma bool_cells_typed (fields : list (option string)) (cs : list Cell) :
  all_cells bool_cell fields = Some cs ->
  existsb isna cs = false ->
  Forall (fun c => exists b, c = Bool b) cs.
Proof.
  revert cs. induction fields as [|f rest IH]; simpl; intros cs H Hna.
  - injection H as <-. constructor.
  - destruct (bool_cell f) as [c|] eqn:Ec; [|discriminate].
    destruct (all_cells bool_cell rest) as [cs'|]; [|discriminate].
    injection H as <-. simpl in Hna. apply orb_false_iff in Hna.
    destruct Hna as [Hc Hrest].
    constructor; [|apply IH; [reflexivity|exact Hrest]].
    unfold bool_cell in Ec. destruct f as [t|].
    + destruct (bool_of_string t); [|discriminate].
      injection Ec as <-. eauto.
    + injection Ec as <-. discriminate.
Qed.

Lemma infer_column_typed (fields : list (option string)) :
  csv_typed (infer_column fields).
Proof.
  unfold infer_column, csv_typed. destruct fields as [|f rest]; [exact I|].
  destruct (all_cells number_cell (f :: rest)) as [cs|] eqn:E1.
  - simpl. apply (number_cells_typed _ _ E1).
  - destruct (all_cells bool_cell (f :: rest)) as [cs|] eqn:E2.
    + destruct (existsb isna cs) eqn:Ena; simpl; [exact I|].
      apply (bool_cells_typed _ _ E2 Ena).
    + exact I.
Qed.

Lemma read_csv_typed (csv : CsvFile) (n : nat) : frame_typed (read_csv csv n).
Proof.
  unfold frame_typed, read_csv. simpl. apply Forall_forall. intros c Hc.
  apply in_map_iff in Hc. destruct Hc as [jn [<- _]]. simpl.
  apply infer_column_typed.
Qed.

Lemma filter_typed (f : string * Series -> bool) (cols : list (string * Series)) :
  Forall (fun c => csv_typed (snd c)) cols ->
  Forall (fun c => csv_typed (snd c)) (filter f cols).
Proof.
  rewrite !Forall_forall. intros H c Hc. apply filter_In in Hc. apply H, Hc.
Qed.

Lemma setup_typed (csv : CsvFile) (g : RngState) : frame_typed (df (setup csv g)).
Proof.
  unfold setup, frame_typed. cbn [df drop_columns columns].
  apply filter_typed.
  unfold prune_missing, dropna_columns. cbn [columns].
  apply filter_typed, read_csv_typed.
Qed.

(** One assignment [df[name] = pd.to_numeric(df[name], errors='coerce')]
    on a frame that has the column. *)
Lemma coerce_column_spec (name : string) (s : St) (old : Series) :
  frame_typed (df s) ->
  lookup name (columns (df s)) = Some old ->
  exists s',
    coerce_column name s = Ok tt s' /\
    frame_typed (df s') /\
    column_names (df s') = column_names (df s) /\
    nrows (df s') = nrows (df s) /\
    lookup name (columns (df s')) = Some (coerced old) /\
    (forall other, other <> name ->
       lookup other (columns (df s')) = lookup other (columns (df s))) /\
    df_num s' = df_num s /\ df_cat s' = df_cat s /\ shown s' = shown s.
Proof.
  intros Ht Hl. eexists. split; [apply (coerce_column_present _ _ _ Hl)|].
  cbn [df df_num df_cat shown setitem columns nrows].
  repeat split.
  - apply replace_typed; [|exact Ht].
    apply coerced_typed, (lookup_typed name (df s) old Ht Hl).
  - unfold column_names. cbn [columns].
    apply (names_replace_present _ _ _ _ Hl).
  - apply lookup_replace_same.
  - intros other Hne. apply lookup_replace_other, Hne.
Qed.


End CoercionStep.

(** ** The visualization steps, one by one *)

Section Steps.

Context {P : Parsing} {R : Rng}.
Variable render : PlotKind -> DataFrame -> option Exn.

Lemma plain_step_post (k : PlotKind) (s : St) (r : Result unit) :
  plain_outcome k s r -> step_post k s r.
Proof.
  unfold plain_outcome, step_post.
  intros [[e ->]|[[-> Hg]|[f [-> [Hk [Hg Hu]]]]]]; cbn;
    repeat (split; [auto|]).
  - left. split; [reflexivity|discriminate].
  - left. split; [reflexivity|auto].
  - right. exists f. auto.
Qed.

Lemma plot_cases (k : PlotKind) (data : DataFrame) (s : St) :
  (exists e, render k data = Some e /\ plot render k data s = Raised e s) \/
  (render k data = None /\
   plot render k data s = Ok tt (add_figure (mkFig k (column_names data)) s)).
Proof.
  unfold plot, bind, draw, plt_show.
  destruct (render k data) as [e|]; [left; eauto|right; auto].
Qed.

Lemma heatmap_outcome (s : St) : plain_outcome Heatmap s (heatmap render s).
Proof.
  unfold heatmap.
  destruct (plot_cases Heatmap (df_num s) s) as [[e [_ ->]]|[_ ->]].
  - left. eauto.
  - right. right. eexists. split; [reflexivity|]. cbn. auto.
Qed.

Lemma counts_plot_outcome (k : PlotKind) (name : string) (s : St) :
  (forall d, guard_of k d = has_column name d) ->
  k <> Heatmap -> k <> Pairplot ->
  plain_outcome k s (counts_plot render k name s).
Proof.
  intros Hg Hh Hp. unfold counts_plot, bind, get_df, when.
  destruct (has_column name (df s)) eqn:Hc.
  - pose proof Hc as Hl. rewrite has_column_lookup in Hl. unfold lift, getitem.
    destruct (lookup name (columns (df s))) as [col|]; [|discriminate].
    cbn [ret]. destruct (plot_cases k (frame_of name col) s) as [[e [_ ->]]|[_ ->]].
    + left. eauto.
    + right. right. eexists. split; [reflexivity|]. cbn [kind uses].
      rewrite Hg. repeat split; auto.
      intros [?|?]; contradiction.
  - right. left. split; [reflexivity|]. rewrite Hg. exact Hc.
Qed.

Lemma sns_resolve_cases (vars : list string) (d : DataFrame) (s : St) :
  (exists v, In v vars /\ has_column v d = false /\
     sns_resolve vars d s =
     Raised (ValueError (String.append "Could not interpret value " v)) s) \/
  ((forall v, In v vars -> has_column v d = true) /\
   sns_resolve vars d s = Ok tt s).
Proof.
  induction vars as [|v rest IH]; simpl.
  - right. split; [intros v []|reflexivity].
  - destruct (has_column v d) eqn:Hv.
    + destruct IH as [[w [Hin [Hw E]]]|[Hall E]].
      * left. exists w. auto.
      * right. split; [|exact E]. intros w [<-|Hin]; auto.
    + left. exists v. auto.
Qed.

Lemma scatter_outcome (s : St) : plain_outcome Scatter s (scatter render s).
Proof.
  unfold scatter, bind, get_df.
  destruct (sns_resolve_cases ["Start_Lng"; "Start_Lat"; "State"] (df s) s)
    as [[v [_ [_ ->]]]|[_ ->]]; [left; eauto|].
  unfold draw. destruct (render Scatter (df s)) as [e|]; [left; eauto|].
  unfold lift, getitem.
  destruct (lookup "State" (columns (df s))); cbn; [|left; eauto].
  right. right. eexists. split; [reflexivity|]. cbn.
  repeat split. intros [?|?]; discriminate.
Qed.

Lemma by_severity_plot_outcome (k : PlotKind) (y : string) (s : St) :
  (forall d, guard_of k d = has_column "Severity" d && has_column y d) ->
  k <> Heatmap -> k <> Pairplot ->
  plain_outcome k s (by_severity_plot render k y s).
Proof.
  intros Hg Hh Hp. unfold by_severity_plot, bind, get_df, when.
  destruct (has_column "Severity" (df s) && has_column y (df s)) eqn:Hc.
  - destruct (sns_resolve_cases ["Severity"; y] (df s) s)
      as [[v [_ [_ ->]]]|[_ ->]]; [left; eauto|].
    destruct (plot_cases k (df s) s) as [[e [_ ->]]|[_ ->]]; [left; eauto|].
    right. right. eexists. split; [reflexivity|]. cbn [kind uses].
    rewrite Hg. repeat split; auto.
    intros [?|?]; contradiction.
  - right. left. split; [reflexivity|]. rewrite Hg. exact Hc.
Qed.

Lemma temp_density_outcome (s : St) :
  plain_outcome TempDensity s (temp_density render s).
Proof.
  unfold temp_density, bind, get_df, lift, getitem.
  destruct (lookup "Temperature(F)" (columns (df s))) as [col|]; cbn;
    [|left; eauto].
  destruct (plot_cases TempDensity
              (frame_of "Temperature(F)" (series_dropna col)) s)
    as [[e [_ ->]]|[_ ->]]; [left; eauto|].
  right. right. eexists. split; [reflexivity|]. cbn.
  repeat split. intros [?|?]; discriminate.
Qed.

(** *** Datetime parsing *)

Lemma to_datetime_coerce (s : Series) :
  to_datetime ErrCoerce s = inr (parsed s).
Proof.
  unfold to_datetime, parsed.
  destruct (dtype s); try rewrite convert_cells_coerce; reflexivity.
Qed.

Lemma parsed_dtype (s : Series) : dtype (parsed s) = Datetime.
Proof.
  unfold parsed. destruct (dtype s) eqn:E; simpl; auto.
Qed.

Lemma time_of_day_cases (s : St) :
  (lookup "Start_Time" (columns (df s)) = None /\
   time_of_day render s = Raised (KeyError "Start_Time") s) \/
  (exists old,
     lookup "Start_Time" (columns (df s)) = Some old /\
     ((exists e, render HoursHist (frame_of "Hours" (hours old)) = Some e /\
                 time_of_day render s = Raised e (with_hours old s)) \/
      (render HoursHist (frame_of "Hours" (hours old)) = None /\
       time_of_day render s =
       Ok tt (add_figure (mkFig HoursHist ["Hours"]) (with_hours old s))))).
Proof.
  unfold time_of_day, bind, get_df, lift, getitem.
  destruct (lookup "Start_Time" (columns (df s))) as [old|] eqn:E;
    [right; exists old; split; [reflexivity|] | left; auto].
  cbn [ret]. rewrite to_datetime_coerce. cbn [ret put_df df setitem columns].
  rewrite lookup_replace_same. cbn [ret].
  unfold dt_hour. rewrite parsed_dtype. cbn [ret put_df df setitem columns].
  rewrite lookup_replace_same. cbn [ret].
  fold (hours old).
  match goal with
  | |- context [plot render HoursHist ?d ?st] =>
      destruct (plot_cases HoursHist d st) as [[e [He ->]]|[He ->]]
  end.
  - left. exists e. split; [exact He|reflexivity].
  - right. split; [exact He|reflexivity].
Qed.

Lemma with_hours_lookup (old : Series) (s : St) (name : string) :
  name <> "Hours" -> name <> "Start_Time" ->
  lookup name (columns (df (with_hours old s))) = lookup name (columns (df s)).
Proof.
  intros H1 H2. cbn [with_hours df setitem columns].
  rewrite !lookup_replace_other by assumption. reflexivity.
Qed.

Lemma with_hours_has_column (old : Series) (s : St) (name : string) :
  lookup "Start_Time" (columns (df s)) = Some old ->
  name <> "Hours" ->
  has_column name (df (with_hours old s)) = has_column name (df s).
Proof.
  intros Hold H1. rewrite !has_column_lookup.
  destruct (String.eqb_spec name "Start_Time") as [->|H2].
  - rewrite Hold. cbn [with_hours df setitem columns].
    rewrite lookup_replace_other by discriminate.
    rewrite lookup_replace_same. reflexivity.
  - rewrite with_hours_lookup by assumption. reflexivity.
Qed.

Lemma time_of_day_post (s : St) : step_post HoursHist s (time_of_day render s).
Proof.
  unfold step_post.
  destruct (time_of_day_cases s)
    as [[_ ->]|[old [Hold [[e [_ ->]]|[_ ->]]]]];
    cbn [final_state completed add_figure df df_num shown].
  - repeat (split; [auto|]). left. split; [reflexivity|discriminate].
  - split; [reflexivity|]. split; [reflexivity|]. split; [congruence|].
    split; [apply with_hours_lookup|].
    split; [intros name Hn; apply with_hours_has_column; assumption|].
    left. split; [reflexivity|discriminate].
  - split; [reflexivity|]. split; [reflexivity|]. split; [congruence|].
    split; [apply with_hours_lookup|].
    split; [intros name Hn; apply with_hours_has_column; assumption|].
    right. exists (mkFig HoursHist ["Hours"]).
    split; [reflexivity|]. split; [reflexivity|]. split; [reflexivity|].
    split; [reflexivity|]. intros [?|?]; discriminate.
Qed.

(** *** The pairplot sample *)

Lemma sample_size_le (d : DataFrame) : (sample_size d <= nrows d)%nat.
Proof. unfold sample_size. lia. Qed.

Lemma sample_rows_ok (g : RngState) (rs : option Z) (d : DataFrame) :
  sample_rows g (sample_size d) rs d =
  inr (firstn (sample_size d)
         (permutation (match rs with Some seed => seed_rng seed | None => g end)
                      (nrows d))).
Proof.
  unfold sample_rows. pose proof (sample_size_le d) as Hle.
  destruct (Nat.ltb_spec (nrows d) (sample_size d)); [lia|reflexivity].
Qed.

Lemma sample_ok (g : RngState) (d : DataFrame) :
  sample g (sample_size d) (Some 42) d = inr (take_rows (drawn_rows d) d).
Proof. unfold sample. rewrite sample_rows_ok. reflexivity. Qed.

Lemma select_columns_names (names : list string) (d : DataFrame)
  (cols : list (string * Series)) :
  select_columns names d = inr cols -> map fst cols = names.
Proof.
  revert cols. induction names as [|n rest IH]; simpl; intros cols H.
  - injection H as <-. reflexivity.
  - destruct (lookup n (columns d)); [|discriminate].
    destruct (select_columns rest d) as [e|cs]; [discriminate|].
    injection H as <-. simpl. rewrite (IH cs eq_refl). reflexivity.
Qed.

Lemma pairplot_cases (s : St) :
  let s1 := with_sample (take_rows (drawn_rows (df s)) (df s)) s in
  (exists e, pairplot render s = Raised e s1) \/
  (exists f, pairplot render s = Ok tt (add_figure f s1) /\
             kind f = Pairplot /\ uses f = column_names (df_num s)).
Proof.
  intros s1. unfold pairplot, bind, get_df.
  rewrite sample_ok. cbn [lift ret put_sample].
  fold (with_sample (take_rows (drawn_rows (df s)) (df s)) s). fold s1.
  destruct (select_columns (column_names (df_num s))
              (take_rows (drawn_rows (df s)) (df s))) as [e|cols] eqn:E;
    cbn [lift raise ret]; [left; eauto|].
  match goal with
  | |- context [plot render Pairplot ?d ?st] =>
      destruct (plot_cases Pairplot d st) as [[e [_ ->]]|[_ ->]]
  end; [left; eauto|].
  right. eexists. split; [reflexivity|]. cbn [kind uses]. split; [reflexivity|].
  unfold column_names at 1. cbn [columns].
  apply (select_columns_names _ _ _ E).
Qed.

Lemma pairplot_post (s : St) : step_post Pairplot s (pairplot render s).
Proof.
  unfold step_post.
  destruct (pairplot_cases s) as [[e ->]|[f [-> [Hk Hu]]]];
    cbn [final_state completed add_figure with_sample df df_num shown];
    repeat (split; [auto|]).
  - left. split; [reflexivity|discriminate].
  - right. exists f. auto.
Qed.

(** Every visualization step meets [step_post]. *)
Lemma plot_steps_post (k : PlotKind) (m : M unit) :
  In (k, m) (plot_steps render) -> forall s, step_post k s (m s).
Proof.
  unfold plot_steps. simpl.
  intros [H|[H|[H|[H|[H|[H|[H|[H|[H|[H|[H|[]]]]]]]]]]]] s;
    injection H as <- <-.
  - apply plain_step_post, heatmap_outcome.
  - apply plain_step_post, counts_plot_outcome; [reflexivity|discriminate..].
  - apply plain_step_post, counts_plot_outcome; [reflexivity|discriminate..].
  - apply plain_step_post, counts_plot_outcome; [reflexivity|discriminate..].
  - apply plain_step_post, counts_plot_outcome; [reflexivity|discriminate..].
  - apply time_of_day_post.
  - apply plain_step_post, scatter_outcome.
  - apply plain_step_post, by_severity_plot_outcome; [reflexivity|discriminate..].
  - apply plain_step_post, by_severity_plot_outcome; [reflexivity|discriminate..].
  - apply plain_step_post, temp_density_outcome.
  - apply pairplot_post.
Qed.

Lemma plot_steps_kinds : map fst (plot_steps render) = plot_order.
Proof. reflexivity. Qed.

(** *** The coercion step on any state *)

Lemma has_column_names (name : string) (d d' : DataFrame) :
  column_names d' = column_names d -> has_column name d' = has_column name d.
Proof. unfold has_column. intros ->. reflexivity. Qed.

Lemma coerce_column_outcome (name : string) (s : St) :
  (has_column name (df s) = false /\
   coerce_column name s = Raised (KeyError name) s) \/
  (has_column name (df s) = true /\
   exists s', coerce_column name s = Ok tt s' /\
     shown s' = shown s /\ df_num s' = df_num s /\
     nrows (df s') = nrows (df s) /\
     column_names (df s') = column_names (df s)).
Proof.
  rewrite has_column_lookup.
  destruct (lookup name (columns (df s))) as [old|] eqn:E.
  - right. split; [reflexivity|]. eexists.
    split; [apply (coerce_column_present _ _ _ E)|].
    cbn [shown df_num df setitem nrows]. repeat split.
    unfold column_names. cbn [columns]. apply (names_replace_present _ _ _ _ E).
  - left. split; [reflexivity|]. apply coerce_column_absent, E.
Qed.

Lemma coerce_numeric_outcome (s : St) :
  let r := coerce_numeric s in
  shown (final_state r) = shown s /\
  df_num (final_state r) = df_num s /\
  nrows (df (final_state r)) = nrows (df s) /\
  column_names (df (final_state r)) = column_names (df s) /\
  (((forall name, In name coerced_names -> has_column name (df s) = true) /\
    completed r = true) \/
   (exists key s', In key coerced_names /\ has_column key (df s) = false /\
                   r = Raised (KeyError key) s')).
Proof.
  unfold coerce_numeric, bind. cbv zeta.
  destruct (coerce_column_outcome "Start_Lng" s)
    as [[H1 ->]|[H1 [s1 [-> [Sh1 [Nu1 [Ro1 Na1]]]]]]].
  { cbn [final_state]. repeat (split; [reflexivity|]).
    right. exists "Start_Lng", s. simpl. auto. }
  destruct (coerce_column_outcome "Start_Lat" s1)
    as [[H2 ->]|[H2 [s2 [-> [Sh2 [Nu2 [Ro2 Na2]]]]]]].
  { cbn [final_state]. repeat (split; [congruence|]).
    right. exists "Start_Lat", s1.
    rewrite (has_column_names _ _ _ Na1) in H2. simpl. auto. }
  destruct (coerce_column_outcome "Temperature(F)" s2)
    as [[H3 ->]|[H3 [s3 [-> [Sh3 [Nu3 [Ro3 Na3]]]]]]].
  { cbn [final_state]. repeat (split; [congruence|]).
    right. exists "Temperature(F)", s2.
    rewrite (has_column_names _ _ _ Na2), (has_column_names _ _ _ Na1) in H3.
    simpl. auto. }
  cbn [final_state completed]. repeat (split; [congruence|]).
  left. split; [|reflexivity].
  rewrite (has_column_names _ _ _ Na1) in H2.
  rewrite (has_column_names _ _ _ Na2), (has_column_names _ _ _ Na1) in H3.
  intros name [<-|[<-|[<-|[]]]]; assumption.
Qed.

End Steps.

(** ** Whole runs *)


Lemma Subseq_In {A} (l1 l2 : list A) (x : A) :
  Subseq l1 l2 -> In x l1 -> In x l2.
Proof.
  induction 1 as [l|y l1 l2 _ IH|y l1 l2 _ IH]; simpl; intros Hin.
  - contradiction.
  - right. apply IH, Hin.
  - destruct Hin as [->|Hin]; [left; reflexivity|right; apply IH, Hin].
Qed.


Lemma Subseq_filter {A} (f : A -> bool) (l : list A) : Subseq (filter f l) l.
Proof.
  induction l as [|x l IH]; simpl; [constructor|].
  destruct (f x); constructor; exact IH.
Qed.


Section Runs.

Context {P : Parsing} {R : Rng}.
Variable render : PlotKind -> DataFrame -> option Exn.

Lemma guard_of_stable (k : PlotKind) (d d' : DataFrame) :
  (forall name, name <> "Hours" -> has_column name d' = has_column name d) ->
  guard_of k d' = guard_of k d.
Proof.
  intros H. destruct k; simpl; try reflexivity;
    rewrite ?(H "City"), ?(H "Severity"), ?(H "Road_Condition"),
            ?(H "Weather_Condition"), ?(H "Temperature(F)"),
            ?(H "Wind_Speed(mph)") by discriminate; reflexivity.
Qed.

Lemma run_steps_post (steps : list (PlotKind * M unit)) :
  (forall k m, In (k, m) steps -> forall s, step_post k s (m s)) ->
  forall s, run_post (map fst steps) s (run_steps (map snd steps) s).
Proof.
  induction steps as [|[k m] rest IH]; intros Hall s.
  - unfold run_post. simpl. repeat (split; [auto|]).
    exists []. rewrite app_nil_r. repeat split; [constructor|].
    intros f [].
  - assert (Hrest : forall k' m', In (k', m') rest ->
                    forall s', step_post k' s' (m' s')).
    { intros k' m' Hin. apply Hall. right. exact Hin. }
    specialize (IH Hrest).
    pose proof (Hall k m (or_introl eq_refl) s) as Hstep.
    unfold step_post in Hstep. cbv zeta in Hstep.
    destruct Hstep as [Hnum [Hrows [_ [_ [Hhas Hfig]]]]].
    cbn [map fst snd run_steps]. unfold bind.
    destruct (m s) as [[] s1|e s1] eqn:Em; cbn [final_state completed] in *.
    + specialize (IH s1). unfold run_post in IH. cbv zeta in IH.
      destruct IH as [Inum [Irows [Ihas [fs [Ish [Isub [Icomp Iuses]]]]]]].
      unfold run_post. cbv zeta.
      split; [congruence|]. split; [congruence|].
      split; [intros name Hn; rewrite Ihas, Hhas by assumption; reflexivity|].
      assert (Hfilter : filter (fun k0 => guard_of k0 (df s1)) (map fst rest) =
                        filter (fun k0 => guard_of k0 (df s)) (map fst rest)).
      { apply filter_ext. intros k0. apply guard_of_stable, Hhas. }
      destruct Hfig as [[Hsame Hg]|[f [Hk [Happ [_ [Hg Hu]]]]]].
      * exists fs. split; [rewrite Ish, Hsame; reflexivity|].
        split; [apply Subseq_skip, Isub|]. split.
        -- intros Hc. simpl. rewrite (Hg eq_refl), (Icomp Hc). exact Hfilter.
        -- intros f Hin Hkf. rewrite (Iuses f Hin Hkf), Hnum. reflexivity.
      * exists (f :: fs). split.
        { rewrite Ish, Happ, <- app_assoc. reflexivity. }
        split; [simpl; rewrite Hk; apply Subseq_take, Isub|]. split.
        -- intros Hc. simpl. rewrite Hg, Hk, (Icomp Hc), Hfilter. reflexivity.
        -- intros f' [<-|Hin] Hkf.
           ++ apply Hu. rewrite <- Hk. exact Hkf.
           ++ rewrite (Iuses f' Hin Hkf), Hnum. reflexivity.
    + unfold run_post. cbn [final_state completed].
      split; [exact Hnum|]. split; [exact Hrows|]. split; [exact Hhas|].
      exists []. rewrite app_nil_r.
      destruct Hfig as [[Hsame _]|[f [_ [_ [Hc _]]]]]; [|discriminate].
      split; [exact Hsame|]. split; [constructor|].
      split; [discriminate|]. intros f [].
Qed.


Lemma setup_shown (csv : CsvFile) (g : RngState) : shown (setup csv g) = [].
Proof. reflexivity. Qed.

End Runs.

(** ** The load bound along the run *)

Section Bound.

Context {P : Parsing} {R : Rng}.
Variable render : PlotKind -> DataFrame -> option Exn.


Lemma firstn_In {A} (k : nat) (l : list A) (x : A) :
  In x (firstn k l) -> In x l.
Proof.
  revert l. induction k as [|k IH]; intros [|a l]; simpl; try contradiction.
  intros [->|H]; [left; reflexivity|right; apply IH, H].
Qed.



Lemma script_is_all_statements (s : St) :
  script render s = run_steps (firstn 12 (statements render)) s.
Proof. reflexivity. Qed.

End Bound.

(** ** Datetime parsing and the hour of day *)

Section TimeOfDay.

Context {P : Parsing} {R : Rng}.
Variable render : PlotKind -> DataFrame -> option Exn.









End TimeOfDay.

(** ** The visualization sequence *)

Section Sequence.

Context {P : Parsing} {R : Rng}.
Variable render : PlotKind -> DataFrame -> option Exn.







End Sequence.

(** ** Absent columns *)

Section Absence.

Context {P : Parsing} {R : Rng}.
Variable render : PlotKind -> DataFrame -> option Exn.

Lemma run_steps_app (l1 l2 : list (M unit)) (s : St) :
  run_steps (l1 ++ l2) s = bind (run_steps l1) (fun _ => run_steps l2) s.
Proof.
  revert s. induction l1 as [|m rest IH]; intros s; [reflexivity|].
  cbn [app run_steps]. unfold bind in *.
  destruct (m s) as [[] s1|e s1]; [apply IH|reflexivity].
Qed.

Lemma guarded_skip (k : PlotKind) (m : M unit) (s : St) :
  In (k, m) (plot_steps render) ->
  guard_of k (df s) = false -> m s = Ok tt s.
Proof.
  unfold plot_steps. simpl.
  intros [H|[H|[H|[H|[H|[H|[H|[H|[H|[H|[H|[]]]]]]]]]]]];
    injection H as <- <-; simpl; intros Hg; try discriminate;
    unfold city_bar, severity_pie, road_pie, weather_bar, counts_plot,
           temp_box, wind_violin, by_severity_plot, bind, get_df, when;
    rewrite Hg; reflexivity.
Qed.

Lemma scatter_without_state (s : St) :
  has_column "State" (df s) = false ->
  exists msg, scatter render s = Raised (ValueError msg) s.
Proof.
  intros Hs. unfold scatter, bind, get_df.
  destruct (sns_resolve_cases ["Start_Lng"; "Start_Lat"; "State"] (df s) s)
    as [[v [_ [_ ->]]]|[Hall _]]; [eauto|].
  rewrite Hall in Hs; [discriminate|simpl; auto].
Qed.

Lemma density_without_temperature (s : St) :
  has_column "Temperature(F)" (df s) = false ->
  temp_density render s = Raised (KeyError "Temperature(F)") s.
Proof.
  rewrite has_column_lookup. intros Hs.
  unfold temp_density, bind, get_df, lift, getitem.
  destruct (lookup "Temperature(F)" (columns (df s))); [discriminate|reflexivity].
Qed.

Lemma run_without_temperature (csv : CsvFile) (g : RngState) :
  has_column "Temperature(F)" (df (setup csv g)) = false ->
  exists key s', run render csv g = Raised (KeyError key) s' /\ shown s' = [].
Proof.
  intros Hs. unfold run, script. cbn [run_steps]. unfold bind.
  pose proof (coerce_numeric_outcome (setup csv g)) as Hc. cbv zeta in Hc.
  destruct Hc as [Hsh [_ [_ [_ [[Hall _]|[key [s' [_ [_ E]]]]]]]]].
  - rewrite Hall in Hs; [discriminate|simpl; auto].
  - rewrite E in *. exists key, s'. split; [reflexivity|exact Hsh].
Qed.

Lemma run_without_state (csv : CsvFile) (g : RngState) :
  has_column "State" (df (setup csv g)) = false ->
  completed (run render csv g) = false /\
  Subseq (figures (run render csv g)) before_scatter.
Proof.
  intros Hs. unfold run, script, figures. cbn [run_steps]. unfold bind.
  pose proof (coerce_numeric_outcome (setup csv g)) as Hc. cbv zeta in Hc.
  destruct Hc as [Hsh [_ [_ [Hna _]]]].
  destruct (coerce_numeric (setup csv g)) as [[] s1|e s1];
    cbn [final_state completed] in *.
  - assert (Hs1 : has_column "State" (df s1) = false).
    { rewrite (has_column_names _ _ _ Hna). exact Hs. }
    change (map snd (plot_steps render))
      with (map snd (firstn 6 (plot_steps render)) ++
            map snd (skipn 6 (plot_steps render))).
    rewrite run_steps_app. unfold bind.
    pose proof (run_steps_post (firstn 6 (plot_steps render))
      (fun k m Hin => plot_steps_post render k m (firstn_In _ _ _ Hin)) s1) as Hr.
    unfold run_post in Hr. cbv zeta in Hr.
    destruct Hr as [_ [_ [Hhas [fs [Hfs [Hsub _]]]]]].
    change (map fst (firstn 6 (plot_steps render))) with before_scatter in Hsub.
    rewrite Hsh, setup_shown in Hfs. cbn [app] in Hfs.
    destruct (run_steps (map snd (firstn 6 (plot_steps render))) s1)
      as [[] s6|e s6]; cbn [final_state completed] in *.
    + assert (Hs6 : has_column "State" (df s6) = false).
      { rewrite Hhas by discriminate. exact Hs1. }
      destruct (scatter_without_state s6 Hs6) as [msg E].
      cbn [skipn plot_steps map snd run_steps]. unfold bind. rewrite E.
      cbn [final_state completed]. rewrite Hfs. auto.
    + rewrite Hfs. auto.
  - rewrite Hsh. split; [reflexivity|constructor].
Qed.

(** C9, as the code has it.  A guarded plot is skipped, without error
    and without touching the state, when its guard column is absent.
    The geographic scatter and the density plot are unguarded: without
    'State' the scatter raises seaborn's ValueError, without
    'Temperature(F)' the density plot raises KeyError.  For a whole run:
    without 'Temperature(F)' the run raises a KeyError before any figure
    is shown; without 'State' the run does not complete and shows no
    figure from the scatter on. *)
Theorem column_absence_handling :
  (forall k m s, In (k, m) (plot_steps render) ->
     guard_of k (df s) = false -> m s = Ok tt s) /\
  (forall s, has_column "State" (df s) = false ->
     exists msg, scatter render s = Raised (ValueError msg) s) /\
  (forall s, has_column "Temperature(F)" (df s) = false ->
     temp_density render s = Raised (KeyError "Temperature(F)") s) /\
  (forall csv g, has_column "Temperature(F)" (df (setup csv g)) = false ->
     exists key s', run render csv g = Raised (KeyError key) s' /\ shown s' = []) /\
  (forall csv g, has_column "State" (df (setup csv g)) = false ->
     completed (run render csv g) = false /\
     Subseq (figures (run render csv g)) before_scatter).
Proof.
  split; [exact guarded_skip|].
  split; [exact scatter_without_state|].
  split; [exact density_without_temperature|].
  split; [exact run_without_temperature|exact run_without_state].
Qed.

End Absence.

(** ** The pairplot sample *)

Section Sampling.

Context {P : Parsing} {R : Rng}.
Variable render : PlotKind -> DataFrame -> option Exn.

Lemma permutation_length (g : RngState) (k : nat) :
  length (permutation g k) = k.
Proof.
  rewrite (Permutation_length (permutation_perm g k)). apply length_seq.
Qed.

Lemma drawn_rows_length (d : DataFrame) :
  length (drawn_rows d) = sample_size d.
Proof.
  unfold drawn_rows. rewrite length_firstn, permutation_length.
  pose proof (sample_size_le d). lia.
Qed.

Lemma firstn_NoDup {A} (k : nat) (l : list A) : NoDup l -> NoDup (firstn k l).
Proof.
  revert l. induction k as [|k IH]; intros [|a l] H; simpl; try constructor.
  - inversion H; subst. intros Hin. apply firstn_In in Hin. contradiction.
  - inversion H; subst. auto.
Qed.

Lemma drawn_rows_distinct (d : DataFrame) :
  NoDup (drawn_rows d) /\ forall i, In i (drawn_rows d) -> (i < nrows d)%nat.
Proof.
  unfold drawn_rows. split.
  - apply firstn_NoDup.
    apply (Permutation_NoDup (Permutation_sym (permutation_perm _ _))), seq_NoDup.
  - intros i Hi. apply firstn_In in Hi.
    apply (Permutation_in _ (permutation_perm _ _)) in Hi.
    apply in_seq in Hi. lia.
Qed.

(** C10.  The pairplot sample is well defined and deterministic: the
    size asked for is min(len(df), 5000), so [df.sample] does not fail,
    whatever the size of the frame, and draws that many distinct rows of
    the frame; two runs that reach line 139 with the same frame get the
    same sample, whatever state numpy's global generator is in, because
    the generator is seeded with 42. *)
Theorem pairplot_sample_deterministic (s1 s2 : St) :
  df s1 = df s2 ->
  let d := df s1 in
  Z.of_nat (sample_size d) = Z.min (Z.of_nat (nrows d)) 5000 /\
  sample (np_random s1) (sample_size d) (Some 42) d
    = inr (take_rows (drawn_rows d) d) /\
  nrows (take_rows (drawn_rows d) d) = sample_size d /\
  NoDup (drawn_rows d) /\
  (forall i, In i (drawn_rows d) -> (i < nrows d)%nat) /\
  sample (np_random s1) (sample_size d) (Some 42) (df s1)
    = sample (np_random s2) (sample_size d) (Some 42) (df s2) /\
  df_sample (final_state (pairplot render s1))
    = df_sample (final_state (pairplot render s2)).
Proof.
  intros Hdf d.
  split.
  { unfold sample_size. rewrite Nat2Z.inj_min, Z2Nat.id by lia. reflexivity. }
  split; [apply sample_ok|].
  split; [cbn [take_rows nrows]; apply drawn_rows_length|].
  split; [apply drawn_rows_distinct|].
  split; [apply drawn_rows_distinct|].
  split.
  - fold d. rewrite <- Hdf. fold d. rewrite !sample_ok. reflexivity.
  - assert (Hs : forall s, df_sample (final_state (pairplot render s)) =
                           Some (take_rows (drawn_rows (df s)) (df s))).
    { intros s. destruct (pairplot_cases render s) as [[e ->]|[f [-> _]]];
        reflexivity. }
    rewrite !Hs, Hdf. reflexivity.
Qed.

End Sampling.


(** * More of the script *)

(** ** Invariants of the statements *)

Section Invariants.

Context {P : Parsing} {R : Rng}.
Variable render : PlotKind -> DataFrame -> option Exn.

Lemma run_steps_invariant (Inv : St -> Prop) (steps : list (M unit)) :
  (forall m, In m steps -> forall s, Inv s -> Inv (final_state (m s))) ->
  forall s, Inv s -> Inv (final_state (run_steps steps s)).
Proof.
  induction steps as [|m rest IH]; intros Hall s Hs; [exact Hs|].
  cbn [run_steps]. unfold bind.
  pose proof (Hall m (or_introl eq_refl) s Hs) as Hm.
  destruct (m s) as [[] s1|e s1]; cbn [final_state] in *; [|exact Hm].
  apply IH; [|exact Hm]. intros m' Hin. apply Hall. right. exact Hin.
Qed.

(** The state changes a visualization step can make: one more figure,
    the two assignments of line 86-87, the sample of line 139. *)
Lemma plot_step_invariant (Inv : St -> Prop) :
  (forall f s, Inv s -> Inv (add_figure f s)) ->
  (forall old s, lookup "Start_Time" (columns (df s)) = Some old ->
     Inv s -> Inv (with_hours old s)) ->
  (forall s, Inv s ->
     Inv (with_sample (take_rows (drawn_rows (df s)) (df s)) s)) ->
  forall k m, In (k, m) (plot_steps render) ->
  forall s, Inv s -> Inv (final_state (m s)).
Proof.
  intros Hfig Hhours Hsample k m Hin s Hs.
  assert (Hplain : plain_outcome k s (m s) -> Inv (final_state (m s))).
  { intros [[e ->]|[[-> _]|[f [-> _]]]]; cbn [final_state]; auto. }
  unfold plot_steps in Hin. simpl in Hin.
  destruct Hin as [H|[H|[H|[H|[H|[H|[H|[H|[H|[H|[H|[]]]]]]]]]]]];
    injection H as <- <-.
  - apply Hplain, heatmap_outcome.
  - apply Hplain, counts_plot_outcome; [reflexivity|discriminate..].
  - apply Hplain, counts_plot_outcome; [reflexivity|discriminate..].
  - apply Hplain, counts_plot_outcome; [reflexivity|discriminate..].
  - apply Hplain, counts_plot_outcome; [reflexivity|discriminate..].
  - destruct (time_of_day_cases render s)
      as [[_ ->]|[old [Hold [[e [_ ->]]|[_ ->]]]]]; cbn [final_state]; auto.
  - apply Hplain, scatter_outcome.
  - apply Hplain, by_severity_plot_outcome; [reflexivity|discriminate..].
  - apply Hplain, by_severity_plot_outcome; [reflexivity|discriminate..].
  - apply Hplain, temp_density_outcome.
  - destruct (pairplot_cases render s) as [[e ->]|[f [-> _]]];
      cbn [final_state]; auto.
Qed.

(** The state change of one assignment of line 35-37. *)
Lemma coerce_numeric_invariant (Inv : St -> Prop) :
  (forall name old s, lookup name (columns (df s)) = Some old -> Inv s ->
     Inv (mkSt (setitem name (coerced old) (df s)) (df_cat s) (df_num s)
               (df_sample s) (shown s) (np_random s))) ->
  forall s, Inv s -> Inv (final_state (coerce_numeric s)).
Proof.
  intros Hset.
  assert (Hcol : forall name s, Inv s -> Inv (final_state (coerce_column name s))).
  { intros name s Hs.
    destruct (lookup name (columns (df s))) as [old|] eqn:E.
    - rewrite (coerce_column_present _ _ _ E). cbn [final_state]. auto.
    - rewrite (coerce_column_absent _ _ E). exact Hs. }
  intros s Hs. unfold coerce_numeric, bind.
  pose proof (Hcol "Start_Lng" s Hs) as H1.
  destruct (coerce_column "Start_Lng" s) as [[] s1|e s1];
    cbn [final_state] in *; [|exact H1].
  pose proof (Hcol "Start_Lat" s1 H1) as H2.
  destruct (coerce_column "Start_Lat" s1) as [[] s2|e s2];
    cbn [final_state] in *; [|exact H2].
  apply Hcol, H2.
Qed.

(** An invariant of the four kinds of state change holds after every
    statement of the script. *)
Lemma statements_invariant (Inv : St -> Prop) :
  (forall name old s, lookup name (columns (df s)) = Some old -> Inv s ->
     Inv (mkSt (setitem name (coerced old) (df s)) (df_cat s) (df_num s)
               (df_sample s) (shown s) (np_random s))) ->
  (forall f s, Inv s -> Inv (add_figure f s)) ->
  (forall old s, lookup "Start_Time" (columns (df s)) = Some old ->
     Inv s -> Inv (with_hours old s)) ->
  (forall s, Inv s ->
     Inv (with_sample (take_rows (drawn_rows (df s)) (df s)) s)) ->
  forall k s, Inv s ->
  Inv (final_state (run_steps (firstn k (statements render)) s)).
Proof.
  intros Hset Hfig Hhours Hsample k s Hs.
  apply run_steps_invariant; [|exact Hs].
  intros m Hin. apply firstn_In in Hin. unfold statements in Hin.
  destruct Hin as [<-|Hin].
  - apply coerce_numeric_invariant, Hset.
  - apply in_map_iff in Hin. destruct Hin as [[k' m'] [<- Hin]].
    apply (plot_step_invariant Inv Hfig Hhours Hsample k' m' Hin).
Qed.

End Invariants.

(** ** The frames stay rectangular *)

Section Rectangular.

Context {P : Parsing} {R : Rng}.
Variable render : PlotKind -> DataFrame -> option Exn.

Lemma well_formed_filter (f : string * Series -> bool) (d : DataFrame) :
  well_formed d -> well_formed (mkDF (nrows d) (filter f (columns d))).
Proof.
  unfold well_formed. cbn [columns nrows]. rewrite !Forall_forall.
  intros H c Hc. apply filter_In in Hc. apply H, Hc.
Qed.

Lemma well_formed_lookup (name : string) (d : DataFrame) (col : Series) :
  well_formed d -> lookup name (columns d) = Some col ->
  length (values col) = nrows d.
Proof.
  unfold well_formed. rewrite Forall_forall. intros H Hl.
  apply (H (name, col)), lookup_In, Hl.
Qed.

Lemma well_formed_setitem (name : string) (col : Series) (d : DataFrame) :
  well_formed d -> length (values col) = nrows d ->
  well_formed (setitem name col d).
Proof.
  unfold well_formed, setitem. cbn [columns nrows]. intros H Hlen.
  induction H as [|[k v] rest Hv Hrest IH]; simpl.
  - constructor; [exact Hlen|constructor].
  - destruct (String.eqb name k); constructor; simpl; auto.
Qed.

Lemma well_formed_take_rows (idx : list nat) (d : DataFrame) :
  well_formed (take_rows idx d).
Proof.
  unfold well_formed, take_rows. cbn [columns nrows].
  apply Forall_forall. intros c Hc. apply in_map_iff in Hc.
  destruct Hc as [c0 [<- _]]. simpl. apply length_map.
Qed.

Lemma parsed_length (s : Series) :
  length (values (parsed s)) = length (values s).
Proof.
  unfold parsed. destruct (dtype s); simpl; rewrite ?length_map; reflexivity.
Qed.

Lemma hours_length (s : Series) :
  length (values (hours s)) = length (values s).
Proof.
  unfold hours. cbn [values]. rewrite length_map. apply parsed_length.
Qed.

Lemma setup_well_formed (csv : CsvFile) (g : RngState) :
  well_formed (df (setup csv g)) /\
  well_formed (df_num (setup csv g)) /\
  well_formed (df_cat (setup csv g)).
Proof.
  pose proof (read_csv_well_formed csv nrows_limit) as H0.
  assert (H1 : well_formed (prune_missing (read_csv csv nrows_limit))).
  { apply well_formed_filter, H0. }
  unfold setup. cbn [df df_num df_cat].
  split; [apply (well_formed_filter _ _ H1)|].
  split; [apply (well_formed_filter _ _ H1)|].
  unfold drop_columns at 1.
  apply well_formed_filter. unfold drop_columns.
  apply well_formed_filter. unfold select_dtypes.
  apply well_formed_filter, H1.
Qed.

(** After every statement of the script each column of [df], of the
    numeric and the categorical snapshot and of the pairplot sample has
    exactly one cell per row of its frame. *)
Theorem frames_stay_rectangular (csv : CsvFile) (g : RngState) (k : nat) :
  let s := final_state (run_steps (firstn k (statements render)) (setup csv g)) in
  well_formed (df s) /\ well_formed (df_num s) /\ well_formed (df_cat s) /\
  match df_sample s with
  | Some smp => well_formed smp
  | None => True
  end.
Proof.
  apply (statements_invariant render
    (fun s => well_formed (df s) /\ well_formed (df_num s) /\
              well_formed (df_cat s) /\
              match df_sample s with
              | Some smp => well_formed smp
              | None => True
              end)).
  - intros name old s Hl [Hd Hrest]. cbn [df df_num df_cat df_sample].
    split; [|exact Hrest].
    apply well_formed_setitem; [exact Hd|].
    rewrite coerced_length. apply (well_formed_lookup _ _ _ Hd Hl).
  - intros f s H. exact H.
  - intros old s Hl [Hd Hrest]. cbn [with_hours df df_num df_cat df_sample].
    split; [|exact Hrest].
    apply well_formed_setitem.
    + apply well_formed_setitem; [exact Hd|].
      rewrite parsed_length. apply (well_formed_lookup _ _ _ Hd Hl).
    + cbn [setitem nrows]. rewrite hours_length.
      apply (well_formed_lookup _ _ _ Hd Hl).
  - intros s [Hd [Hn [Hc _]]]. cbn [with_sample df df_num df_cat df_sample].
    repeat split; auto. apply well_formed_take_rows.
  - destruct (setup_well_formed csv g) as [Hd [Hn Hc]].
    repeat split; auto.
Qed.

End Rectangular.

(** ** Column order *)

Section ColumnOrder.

Context {P : Parsing} {R : Rng}.
Variable render : PlotKind -> DataFrame -> option Exn.








Lemma has_column_In (name : string) (d : DataFrame) :
  has_column name d = true <-> In name (column_names d).
Proof.
  unfold has_column. rewrite existsb_exists. split.
  - intros [x [Hin Heq]]. apply String.eqb_eq in Heq. subst. exact Hin.
  - intros Hin. exists name. split; [exact Hin|apply String.eqb_refl].
Qed.

Lemma drop_columns_absent (name : string) (names : list string) (d : DataFrame) :
  In name names -> has_column name (drop_columns names d) = false.
Proof.
  intros Hin. destruct (has_column name (drop_columns names d)) eqn:E;
    [|reflexivity].
  apply has_column_In in E. unfold column_names, drop_columns in E.
  cbn [columns] in E. apply in_map_iff in E. destruct E as [c [Hc Hf]].
  apply filter_In in Hf. destruct Hf as [_ Hf]. apply negb_true_iff in Hf.
  assert (Ht : existsb (String.eqb (fst c)) names = true); [|congruence].
  apply existsb_exists. exists name. split; [exact Hin|].
  rewrite Hc. apply String.eqb_refl.
Qed.




End ColumnOrder.

(** ** The categorical snapshot *)

Section Categorical.

Context {P : Parsing} {R : Rng}.
Variable render : PlotKind -> DataFrame -> option Exn.



End Categorical.

(** ** Where a run stops *)

Section Stops.

Context {P : Parsing} {R : Rng}.
Variable render : PlotKind -> DataFrame -> option Exn.

Lemma run_steps_concat (l1 l2 : list (M unit)) (s : St) :
  run_steps (l1 ++ l2) s =
  match run_steps l1 s with
  | Ok _ s1 => run_steps l2 s1
  | Raised e s1 => Raised e s1
  end.
Proof.
  revert s. induction l1 as [|m rest IH]; intros s; [reflexivity|].
  cbn [app run_steps]. unfold bind.
  destruct (m s) as [[] s1|e s1]; [apply IH|reflexivity].
Qed.

Lemma run_steps_cons_ok (m : M unit) (rest : list (M unit)) (s s' : St) :
  run_steps (m :: rest) s = Ok tt s' ->
  exists s1, m s = Ok tt s1 /\ run_steps rest s1 = Ok tt s'.
Proof.
  cbn [run_steps]. unfold bind.
  destruct (m s) as [[] s1|e s1]; [eauto|discriminate].
Qed.

(** The figures shown by the coercion and the first [i] plots. *)
Lemma prefix_figures (i : nat) (s : St) :
  shown s = [] ->
  Subseq (map kind (shown (final_state
            (run_steps (firstn (S i) (statements render)) s))))
         (firstn i plot_order).
Proof.
  intros Hs. unfold statements. cbn [firstn run_steps]. unfold bind.
  pose proof (coerce_numeric_outcome s) as Hc. cbv zeta in Hc.
  destruct Hc as [Hsh _].
  destruct (coerce_numeric s) as [[] s1|e s1]; cbn [final_state] in *.
  - rewrite firstn_map.
    pose proof (run_steps_post (firstn i (plot_steps render))
      (fun k m Hin => plot_steps_post render k m (firstn_In _ _ _ Hin)) s1) as Hr.
    unfold run_post in Hr. cbv zeta in Hr.
    destruct Hr as [_ [_ [_ [fs [Hfs [Hsub _]]]]]].
    rewrite Hfs, Hsh, Hs. cbn [app].
    rewrite <- firstn_map, plot_steps_kinds in Hsub. exact Hsub.
  - rewrite Hsh, Hs. constructor.
Qed.

(** A condition that no statement undoes and under which plot [i]
    cannot complete stops every run at plot [i] at the latest. *)
Lemma run_blocked (B : St -> Prop) (i : nat) (k : PlotKind) (m : M unit) :
  nth_error (plot_steps render) i = Some (k, m) ->
  (forall j s, B s ->
     B (final_state (run_steps (firstn j (statements render)) s))) ->
  (forall s, B s -> completed (m s) = false) ->
  forall csv g, B (setup csv g) ->
  completed (run render csv g) = false /\
  Subseq (figures (run render csv g)) (firstn i plot_order).
Proof.
  intros Hnth Hinv Hblock csv g HB.
  assert (Hsplit : statements render =
                   firstn (S i) (statements render) ++
                   m :: map snd (skipn (S i) (plot_steps render))).
  { unfold statements. cbn [firstn]. rewrite firstn_map.
    change (coerce_numeric :: map snd (plot_steps render)) with
      ([coerce_numeric] ++ map snd (plot_steps render)).
    rewrite <- (firstn_skipn i (plot_steps render)) at 1.
    rewrite map_app.
    assert (Hsk : skipn i (plot_steps render) =
                  (k, m) :: skipn (S i) (plot_steps render)).
    { clear - Hnth. revert i Hnth.
      induction (plot_steps render) as [|a l IH]; intros [|i] H;
        simpl in *; try discriminate.
      - injection H as ->. reflexivity.
      - apply IH, H. }
    rewrite Hsk. reflexivity. }
  unfold run, figures.
  change (script render (setup csv g))
    with (run_steps (statements render) (setup csv g)).
  rewrite Hsplit, run_steps_concat.
  pose proof (prefix_figures i (setup csv g) eq_refl) as Hfig.
  pose proof (Hinv (S i) (setup csv g) HB) as HB1.
  destruct (run_steps (firstn (S i) (statements render)) (setup csv g))
    as [[] s1|e s1]; cbn [final_state completed] in *.
  - cbn [run_steps]. unfold bind.
    pose proof (Hblock s1 HB1) as Hc.
    assert (Hin : In (k, m) (plot_steps render)).
    { apply (nth_error_In _ _ Hnth). }
    destruct (plot_steps_post render k m Hin s1)
      as [_ [_ [_ [_ [_ Hshown]]]]].
    destruct (m s1) as [[] s2|e s2]; cbn [final_state completed] in *;
      [discriminate|].
    split; [reflexivity|].
    destruct Hshown as [[-> _]|[f [_ [_ [Hd _]]]]]; [exact Hfig|discriminate].
  - split; [reflexivity|exact Hfig].
Qed.

Lemma absent_column_stays_absent (name : string) (j : nat) (s : St) :
  name <> "Hours" ->
  has_column name (df s) = false ->
  has_column name (df (final_state
    (run_steps (firstn j (statements render)) s))) = false.
Proof.
  intros Hne.
  apply (statements_invariant render (fun s => has_column name (df s) = false)).
  - intros n old s0 Hl Ha. cbn [df].
    rewrite (has_column_names name (df s0)); [exact Ha|].
    unfold column_names. cbn [setitem columns].
    apply (names_replace_present _ _ _ _ Hl).
  - intros f s0 H. exact H.
  - intros old s0 Hl Ha.
    rewrite (with_hours_has_column old s0 _ Hl) by assumption. exact Ha.
  - intros s0 H. exact H.
Qed.

Lemma time_of_day_without_start_time (s : St) :
  has_column "Start_Time" (df s) = false ->
  time_of_day render s = Raised (KeyError "Start_Time") s.
Proof.
  rewrite has_column_lookup. intros Hs.
  destruct (time_of_day_cases render s) as [[_ E]|[old [Hold _]]]; [exact E|].
  rewrite Hold in Hs. discriminate.
Qed.

(** Without a 'Start_Time' column the time-of-day step raises
    KeyError('Start_Time') and leaves the state as it is; a run on such
    a file does not complete and shows no figure after the weather bar
    chart. *)
Theorem run_without_start_time (csv : CsvFile) (g : RngState) :
  has_column "Start_Time" (df (setup csv g)) = false ->
  (forall s, has_column "Start_Time" (df s) = false ->
     time_of_day render s = Raised (KeyError "Start_Time") s) /\
  completed (run render csv g) = false /\
  Subseq (figures (run render csv g))
         [Heatmap; CityBar; SeverityPie; RoadPie; WeatherBar].
Proof.
  intros Hs. split; [exact time_of_day_without_start_time|].
  apply (run_blocked (fun s => has_column "Start_Time" (df s) = false)
           5 HoursHist (time_of_day render)).
  - reflexivity.
  - intros j s. apply absent_column_stays_absent. discriminate.
  - intros s H. rewrite (time_of_day_without_start_time s H). reflexivity.
  - exact Hs.
Qed.

Lemma take_rows_lookup_none (name : string) (idx : list nat) (d : DataFrame) :
  lookup name (columns d) = None ->
  lookup name (columns (take_rows idx d)) = None.
Proof.
  unfold take_rows. cbn [columns].
  induction (columns d) as [|[k v] rest IH]; simpl; [reflexivity|].
  destruct (String.eqb name k); [discriminate|exact IH].
Qed.

Lemma select_columns_missing (names : list string) (d : DataFrame) (name : string) :
  In name names -> lookup name (columns d) = None ->
  exists key, select_columns names d = inl (KeyError key).
Proof.
  intros Hin Hl. induction names as [|n rest IH]; [contradiction|].
  simpl. destruct (lookup n (columns d)) eqn:E.
  - destruct Hin as [->|Hin]; [congruence|].
    destruct (IH Hin) as [key ->]. eauto.
  - eauto.
Qed.

Lemma pairplot_missing_column (name : string) (s : St) :
  In name (column_names (df_num s)) ->
  has_column name (df s) = false ->
  exists key, pairplot render s =
    Raised (KeyError key) (with_sample (take_rows (drawn_rows (df s)) (df s)) s).
Proof.
  intros Hin Hc. rewrite has_column_lookup in Hc.
  assert (Hl : lookup name (columns (df s)) = None).
  { destruct (lookup name (columns (df s))); [discriminate|reflexivity]. }
  destruct (select_columns_missing (column_names (df_num s))
              (take_rows (drawn_rows (df s)) (df s)) name Hin
              (take_rows_lookup_none _ _ _ Hl)) as [key E].
  exists key. unfold pairplot, bind, get_df.
  rewrite sample_ok. cbn [lift ret put_sample]. rewrite E. reflexivity.
Qed.

(** [df_num] is taken before 'Airport_Code' is dropped from [df]: when
    'Airport_Code' is a numeric column after the pruning, the pairplot's
    [df_sample[df_num.columns]] raises KeyError, so the run does not
    complete and shows no pairplot. *)
Theorem numeric_airport_code_breaks_pairplot (csv : CsvFile) (g : RngState) :
  In "Airport_Code" (column_names (df_num (setup csv g))) ->
  (exists key s', run render csv g = Raised key s') /\
  completed (run render csv g) = false /\
  ~ In Pairplot (figures (run render csv g)).
Proof.
  intros Hin.
  assert (H : completed (run render csv g) = false /\
              Subseq (figures (run render csv g)) (firstn 10 plot_order)).
  { apply (run_blocked
             (fun s => In "Airport_Code" (column_names (df_num s)) /\
                       has_column "Airport_Code" (df s) = false)
             10 Pairplot (pairplot render)).
    - reflexivity.
    - intros j s [Hn Ha]. split.
      + assert (Hfix : df_num (final_state
                  (run_steps (firstn j (statements render)) s)) = df_num s).
        { apply (statements_invariant render
                   (fun s0 => df_num s0 = df_num s)); auto. }
        rewrite Hfix. exact Hn.
      + apply absent_column_stays_absent; [discriminate|exact Ha].
    - intros s [Hn Ha].
      destruct (pairplot_missing_column "Airport_Code" s Hn Ha) as [key ->].
      reflexivity.
    - split; [exact Hin|].
      unfold setup. cbn [df]. apply drop_columns_absent. left. reflexivity. }
  destruct H as [Hc Hsub]. split; [|split; [exact Hc|]].
  - destruct (run render csv g) as [[] s'|e s']; [discriminate|eauto].
  - intros Hp. apply (Subseq_In _ _ _ Hsub) in Hp.
    simpl in Hp. intuition discriminate.
Qed.

End Stops.

(** ** What holds once a statement has run *)

Section Reached.

Context {P : Parsing} {R : Rng}.
Variable render : PlotKind -> DataFrame -> option Exn.

Lemma present_column_stays (name : string) (j : nat) (s : St) :
  has_column name (df s) = true ->
  has_column name (df (final_state
    (run_steps (firstn j (statements render)) s))) = true.
Proof.
  apply (statements_invariant render (fun s => has_column name (df s) = true)).
  - intros n old s0 Hl Ha. cbn [df].
    rewrite (has_column_names name (df s0)); [exact Ha|].
    unfold column_names. cbn [setitem columns].
    apply (names_replace_present _ _ _ _ Hl).
  - intros f s0 H. exact H.
  - intros old s0 Hl Ha.
    destruct (String.eqb_spec name "Hours") as [->|Hne].
    + rewrite has_column_lookup. cbn [with_hours df setitem columns].
      rewrite lookup_replace_same. reflexivity.
    + rewrite (with_hours_has_column old s0 _ Hl) by assumption. exact Ha.
  - intros s0 H. exact H.
Qed.

Lemma plot_steps_keep_columns (steps : list (PlotKind * M unit)) (name : string) :
  (forall k m, In (k, m) steps -> In (k, m) (plot_steps render)) ->
  forall s, has_column name (df s) = true ->
  has_column name (df (final_state (run_steps (map snd steps) s))) = true.
Proof.
  intros Hsub.
  apply (run_steps_invariant (fun s => has_column name (df s) = true)).
  intros m Hin s Hs. apply in_map_iff in Hin. destruct Hin as [[k m'] [<- Hin]].
  refine (plot_step_invariant render (fun s => has_column name (df s) = true)
            _ _ _ k m' (Hsub k m' Hin) s Hs); auto.
  intros old s0 Hl Ha.
  destruct (String.eqb_spec name "Hours") as [->|Hne].
  - rewrite has_column_lookup. cbn [with_hours df setitem columns].
    rewrite lookup_replace_same. reflexivity.
  - rewrite (with_hours_has_column old s0 _ Hl) by assumption. exact Ha.
Qed.

Lemma coerce_numeric_ok (s s1 : St) :
  coerce_numeric s = Ok tt s1 ->
  (forall name, In name coerced_names -> has_column name (df s1) = true) /\
  (forall name, has_column name (df s1) = has_column name (df s)).
Proof.
  intros E. pose proof (coerce_numeric_outcome s) as Hc. cbv zeta in Hc.
  rewrite E in Hc. cbn [final_state completed] in Hc.
  destruct Hc as [_ [_ [_ [Hna [[Hall _]|[key [s' [_ [_ Habs]]]]]]]]];
    [|discriminate].
  assert (Hsame : forall name, has_column name (df s1) = has_column name (df s)).
  { intros name. apply has_column_names, Hna. }
  split; [|exact Hsame]. intros name Hin. rewrite Hsame. apply Hall, Hin.
Qed.

Lemma time_of_day_ok (s s1 : St) :
  time_of_day render s = Ok tt s1 ->
  has_column "Start_Time" (df s1) = true /\ has_column "Hours" (df s1) = true /\
  (forall name, has_column name (df s) = true -> has_column name (df s1) = true).
Proof.
  intros E.
  destruct (time_of_day_cases render s)
    as [[_ E']|[old [Hold [[e [_ E']]|[_ E']]]]]; try congruence.
  rewrite E' in E. injection E as <-.
  cbn [add_figure df].
  assert (Hh : has_column "Hours" (df (with_hours old s)) = true).
  { rewrite has_column_lookup. cbn [with_hours df setitem columns].
    rewrite lookup_replace_same. reflexivity. }
  assert (Hkeep : forall name, has_column name (df s) = true ->
                  has_column name (df (with_hours old s)) = true).
  { intros name Hn. destruct (String.eqb_spec name "Hours") as [->|Hne];
      [exact Hh|].
    rewrite (with_hours_has_column old s _ Hold) by assumption. exact Hn. }
  split; [|split; [exact Hh|exact Hkeep]].
  apply Hkeep. rewrite has_column_lookup, Hold. reflexivity.
Qed.

Lemma scatter_ok (s s1 : St) :
  scatter render s = Ok tt s1 ->
  has_column "State" (df s) = true /\ df s1 = df s.
Proof.
  intros E.
  destruct (has_column "State" (df s)) eqn:Hs.
  - split; [reflexivity|].
    destruct (scatter_outcome render s) as [[e E']|[[E' _]|[f [E' _]]]];
      rewrite E' in E; try discriminate; injection E as <-; reflexivity.
  - destruct (scatter_without_state render s Hs) as [msg E']. congruence.
Qed.

(** A run that reaches the temperature boxplot (line 110) has the
    columns 'Start_Lng', 'Start_Lat', 'Temperature(F)', 'Start_Time',
    'Hours' and 'State': the statements before it index them without a
    guard.  The test ['Temperature(F)' in df.columns] of line 111 is
    therefore always true there, and the boxplot is drawn or skipped on
    'Severity' alone. *)
Theorem reached_boxplot (csv : CsvFile) (g : RngState) (s : St) :
  run_steps (firstn 8 (statements render)) (setup csv g) = Ok tt s ->
  (forall name,
     In name ["Start_Lng"; "Start_Lat"; "Temperature(F)"; "Start_Time";
              "Hours"; "State"] ->
     has_column name (df s) = true) /\
  guard_of TempBox (df s) = has_column "Severity" (df s).
Proof.
  intros Hrun. unfold statements in Hrun. cbn [firstn plot_steps map snd] in Hrun.
  apply run_steps_cons_ok in Hrun. destruct Hrun as [s1 [Hc Hrun]].
  destruct (coerce_numeric_ok _ _ Hc) as [Hthree _].
  change [heatmap render; city_bar render; severity_pie render; road_pie render;
          weather_bar render; time_of_day render; scatter render]
    with (map snd (firstn 5 (plot_steps render)) ++
          [time_of_day render; scatter render]) in Hrun.
  rewrite run_steps_concat in Hrun.
  assert (Hfive : forall name, has_column name (df s1) = true ->
            has_column name (df (final_state
              (run_steps (map snd (firstn 5 (plot_steps render))) s1))) = true).
  { intros name. apply plot_steps_keep_columns.
    intros k m Hin. apply (firstn_In _ _ _ Hin). }
  destruct (run_steps (map snd (firstn 5 (plot_steps render))) s1)
    as [[] s6|e s6]; [|discriminate].
  cbn [final_state] in Hfive.
  apply run_steps_cons_ok in Hrun. destruct Hrun as [s7 [Ht Hrun]].
  apply run_steps_cons_ok in Hrun. destruct Hrun as [s8 [Hs Hrun]].
  cbn [run_steps] in Hrun. injection Hrun as <-.
  destruct (time_of_day_ok _ _ Ht) as [Hst [Hh Hkeep]].
  destruct (scatter_ok _ _ Hs) as [Hstate Hdf].
  assert (Hall : forall name,
     In name ["Start_Lng"; "Start_Lat"; "Temperature(F)"; "Start_Time";
              "Hours"; "State"] -> has_column name (df s8) = true).
  { rewrite Hdf.
    intros name [<-|[<-|[<-|[<-|[<-|[<-|[]]]]]]]; auto;
      apply Hkeep, Hfive, Hthree; simpl; auto. }
  split; [exact Hall|].
  cbn [guard_of]. rewrite (Hall "Temperature(F)") by (simpl; auto).
  apply andb_true_r.
Qed.

(** The numeric coercion fails exactly when one of 'Start_Lng',
    'Start_Lat', 'Temperature(F)' is absent; the KeyError names the
    first absent one in source order, and the columns assigned before
    it stay coerced: the step is not undone. *)
Theorem coercion_stops_at_first_absent (s : St) :
  match first_absent coerced_names (df s) with
  | None => completed (coerce_numeric s) = true
  | Some key =>
      exists earlier later s',
        coerced_names = earlier ++ key :: later /\
        coerce_numeric s = Raised (KeyError key) s' /\
        shown s' = shown s /\
        forall name, In name earlier ->
          exists old, lookup name (columns (df s)) = Some old /\
                      lookup name (columns (df s')) = Some (coerced old)
  end.
Proof.
  unfold first_absent, coerced_names. cbn [find].
  rewrite !has_column_lookup. unfold coerce_numeric, bind.
  destruct (lookup "Start_Lng" (columns (df s))) as [lng|] eqn:E1; cbn [negb].
  2:{ exists [], ["Start_Lat"; "Temperature(F)"], s.
      rewrite (coerce_column_absent _ _ E1).
      repeat split. intros name []. }
  rewrite (coerce_column_present _ _ _ E1).
  set (s1 := mkSt (setitem "Start_Lng" (coerced lng) (df s)) (df_cat s) (df_num s)
                  (df_sample s) (shown s) (np_random s)).
  assert (L1 : lookup "Start_Lng" (columns (df s1)) = Some (coerced lng)).
  { apply lookup_replace_same. }
  assert (O1 : forall other, other <> "Start_Lng" ->
            lookup other (columns (df s1)) = lookup other (columns (df s))).
  { intros other Hne. apply lookup_replace_other, Hne. }
  destruct (lookup "Start_Lat" (columns (df s))) as [lat|] eqn:E2; cbn [negb].
  2:{ exists ["Start_Lng"], ["Temperature(F)"], s1.
      rewrite coerce_column_absent by (rewrite O1 by discriminate; exact E2).
      repeat split. intros name [<-|[]]. exists lng. auto. }
  assert (E2' : lookup "Start_Lat" (columns (df s1)) = Some lat).
  { rewrite O1 by discriminate. exact E2. }
  rewrite (coerce_column_present _ _ _ E2').
  set (s2 := mkSt (setitem "Start_Lat" (coerced lat) (df s1)) (df_cat s1)
                  (df_num s1) (df_sample s1) (shown s1) (np_random s1)).
  assert (L2 : lookup "Start_Lat" (columns (df s2)) = Some (coerced lat)).
  { apply lookup_replace_same. }
  assert (O2 : forall other, other <> "Start_Lat" ->
            lookup other (columns (df s2)) = lookup other (columns (df s1))).
  { intros other Hne. apply lookup_replace_other, Hne. }
  destruct (lookup "Temperature(F)" (columns (df s))) as [tmp|] eqn:E3; cbn [negb].
  2:{ exists ["Start_Lng"; "Start_Lat"], [], s2.
      rewrite coerce_column_absent
        by (rewrite O2, O1 by discriminate; exact E3).
      repeat split. intros name [<-|[<-|[]]].
      - exists lng. split; [exact E1|]. rewrite O2 by discriminate. exact L1.
      - exists lat. auto. }
  assert (E3' : lookup "Temperature(F)" (columns (df s2)) = Some tmp).
  { rewrite O2, O1 by discriminate. exact E3. }
  rewrite (coerce_column_present _ _ _ E3'). reflexivity.
Qed.

Lemma coerced_numeric_or_missing (old : Series) :
  csv_typed old -> Forall numeric_or_missing (values (coerced old)).
Proof.
  unfold csv_typed, coerced, numeric_or_missing.
  destruct (dtype old); cbn [values].
  - intros H. eapply Forall_impl; [|exact H].
    intros c [->|[x ->]]; [left; reflexivity|right; exists x; reflexivity].
  - intros H. eapply Forall_impl; [|exact H].
    intros c [b ->]. right. eexists. reflexivity.
  - intros _. apply Forall_forall. intros c Hc.
    apply in_map_iff in Hc. destruct Hc as [c0 [<- _]].
    destruct c0; simpl; eauto.
    destruct (number_of_string s); simpl; eauto.
  - contradiction.
Qed.

Lemma coerce_numeric_result (s s1 : St) :
  frame_typed (df s) ->
  coerce_numeric s = Ok tt s1 ->
  forall name, In name coerced_names ->
  exists old, lookup name (columns (df s)) = Some old /\ csv_typed old /\
              lookup name (columns (df s1)) = Some (coerced old).
Proof.
  intros Ht0 Hc.
  destruct (coerce_numeric_ok _ _ Hc) as [Hpres Hsame].
  assert (Hget : forall n, In n coerced_names ->
            exists old, lookup n (columns (df s)) = Some old).
  { intros n Hn. specialize (Hpres n Hn). rewrite Hsame in Hpres.
    rewrite has_column_lookup in Hpres.
    destruct (lookup n (columns (df s))); [eauto|discriminate]. }
  destruct (Hget "Start_Lng") as [lng Hlng]; [simpl; auto|].
  destruct (Hget "Start_Lat") as [lat Hlat]; [simpl; auto|].
  destruct (Hget "Temperature(F)") as [tmp Htmp]; [simpl; auto|].
  destruct (coerce_column_spec "Start_Lng" _ lng Ht0 Hlng)
    as [t1 [E1 [Ht1 [_ [_ [Hs1 [Ho1 _]]]]]]].
  assert (Hlat1 : lookup "Start_Lat" (columns (df t1)) = Some lat).
  { rewrite Ho1; [exact Hlat|discriminate]. }
  destruct (coerce_column_spec "Start_Lat" t1 lat Ht1 Hlat1)
    as [t2 [E2 [Ht2 [_ [_ [Hs2 [Ho2 _]]]]]]].
  assert (Htmp2 : lookup "Temperature(F)" (columns (df t2)) = Some tmp).
  { rewrite Ho2, Ho1; [exact Htmp|discriminate|discriminate]. }
  destruct (coerce_column_spec "Temperature(F)" t2 tmp Ht2 Htmp2)
    as [t3 [E3 [_ [_ [_ [Hs3 [Ho3 _]]]]]]].
  assert (Es : s1 = t3).
  { unfold coerce_numeric, bind in Hc. rewrite E1, E2, E3 in Hc.
    injection Hc as <-. reflexivity. }
  subst s1. intros name [<-|[<-|[<-|[]]]].
  - exists lng. split; [exact Hlng|]. split; [apply (lookup_typed _ _ _ Ht0 Hlng)|].
    rewrite Ho3, Ho2; [exact Hs1|discriminate|discriminate].
  - exists lat. split; [exact Hlat|]. split; [apply (lookup_typed _ _ _ Ht0 Hlat)|].
    rewrite Ho3; [exact Hs2|discriminate].
  - exists tmp. split; [exact Htmp|]. split; [apply (lookup_typed _ _ _ Ht0 Htmp)|].
    exact Hs3.
Qed.

(** Once line 37 has run, 'Start_Lng', 'Start_Lat' and 'Temperature(F)'
    hold nothing but numbers and NaN, at every later statement: the
    scatter never meets a text coordinate, and what [dropna()] leaves of
    'Temperature(F)' for the density plot is numbers only. *)
Theorem coerced_columns_stay_numeric
  (csv : CsvFile) (g : RngState) (k : nat) (s : St) (name : string) (col : Series) :
  run_steps (firstn (S k) (statements render)) (setup csv g) = Ok tt s ->
  In name coerced_names ->
  lookup name (columns (df s)) = Some col ->
  Forall numeric_or_missing (values col) /\
  Forall (fun c => exists x, cell_number c = Some x) (values (series_dropna col)).
Proof.
  intros Hrun Hin Hl.
  assert (Hnum : Forall numeric_or_missing (values col)).
  { unfold statements in Hrun. cbn [firstn] in Hrun.
    apply run_steps_cons_ok in Hrun. destruct Hrun as [s1 [Hc Hrun]].
    pose proof (coerce_numeric_result _ _ (setup_typed csv g) Hc) as Hres.
    assert (Hinv : forall n c, In n coerced_names ->
              lookup n (columns (df (final_state
                (run_steps (firstn k (map snd (plot_steps render))) s1)))) = Some c ->
              Forall numeric_or_missing (values c)).
    { apply (run_steps_invariant
               (fun s0 => forall n c, In n coerced_names ->
                  lookup n (columns (df s0)) = Some c ->
                  Forall numeric_or_missing (values c))).
      - intros m Hm. apply firstn_In in Hm. apply in_map_iff in Hm.
        destruct Hm as [[k' m'] [<- Hm]]. cbn [snd].
        apply (plot_step_invariant render
                 (fun s0 => forall n c, In n coerced_names ->
                    lookup n (columns (df s0)) = Some c ->
                    Forall numeric_or_missing (values c))) with (k := k');
          auto.
        intros old s0 _ H0 n c Hn Hc0.
        rewrite with_hours_lookup in Hc0.
        + apply (H0 n c Hn Hc0).
        + destruct Hn as [<-|[<-|[<-|[]]]]; discriminate.
        + destruct Hn as [<-|[<-|[<-|[]]]]; discriminate.
      - intros n c Hn Hc0.
        destruct (Hres n Hn) as [old [_ [Hty Hnew]]].
        rewrite Hnew in Hc0. injection Hc0 as <-.
        apply coerced_numeric_or_missing, Hty. }
    rewrite Hrun in Hinv. apply (Hinv name col Hin Hl). }
  split; [exact Hnum|].
  unfold series_dropna. cbn [values].
  apply Forall_forall. intros c Hc. apply filter_In in Hc.
  destruct Hc as [Hc Hna]. rewrite Forall_forall in Hnum.
  destruct (Hnum c Hc) as [->|Hx]; [discriminate|exact Hx].
Qed.

End Reached.

(** ** The sample, row by row *)

Section SampleRows.

Context {P : Parsing} {R : Rng}.




(** On a frame of at most 5000 rows the "sample" is the whole frame in
    shuffled order: every row label is drawn exactly once.  On a larger
    frame exactly 5000 labels are drawn. *)
Theorem small_frame_sample_is_whole (d : DataFrame) :
  (Z.of_nat (nrows d) <= 5000 ->
   Permutation (drawn_rows d) (seq 0 (nrows d))) /\
  (5000 < Z.of_nat (nrows d) -> Z.of_nat (length (drawn_rows d)) = 5000).
Proof.
  split; intros H.
  - unfold drawn_rows.
    assert (Hs : sample_size d = length (permutation (seed_rng 42) (nrows d))).
    { rewrite permutation_length. unfold sample_size. lia. }
    rewrite Hs, firstn_all. apply permutation_perm.
  - rewrite drawn_rows_length. unfold sample_size. lia.
Qed.

End SampleRows.

(** ** A file without records *)

Section EmptyFile.

Context {P : Parsing} {R : Rng}.
Variable render : PlotKind -> DataFrame -> option Exn.


Lemma filter_all_false {A} (f : A -> bool) (l : list A) :
  (forall x, In x l -> f x = false) -> filter f l = [].
Proof.
  induction l as [|a l IH]; intros H; simpl; [reflexivity|].
  rewrite (H a (or_introl eq_refl)). apply IH.
  intros x Hx. apply H. right. exact Hx.
Qed.




End EmptyFile.

(** ** The counts behind the bar and pie charts *)

Section Counts.

Lemma total_bump (c : Cell) (acc : list (Cell * nat)) :
  total (bump c acc) = S (total acc).
Proof.
  induction acc as [|[v n] rest IH]; simpl; [reflexivity|].
  destruct (cell_eqb c v); simpl; [reflexivity|]. rewrite IH. lia.
Qed.

Lemma tally_from_total (cells : list Cell) (acc : list (Cell * nat)) :
  total (fold_left (fun a c => if isna c then a else bump c a) cells acc) =
  (total acc + length (filter (fun c => negb (isna c)) cells))%nat.
Proof.
  revert acc. induction cells as [|c rest IH]; intros acc; simpl; [lia|].
  rewrite IH. destruct (isna c); simpl; [reflexivity|].
  rewrite total_bump. lia.
Qed.

Lemma total_insert (p : Cell * nat) (l : list (Cell * nat)) :
  total (insert_desc p l) = (snd p + total l)%nat.
Proof.
  induction l as [|q rest IH]; simpl; [reflexivity|].
  destruct (snd q <=? snd p)%nat; simpl; [reflexivity|]. rewrite IH. lia.
Qed.

Lemma total_sort (l : list (Cell * nat)) : total (sort_desc l) = total l.
Proof.
  induction l as [|p rest IH]; simpl; [reflexivity|].
  rewrite total_insert, IH. reflexivity.
Qed.

Lemma insert_desc_perm (p : Cell * nat) (l : list (Cell * nat)) :
  Permutation (insert_desc p l) (p :: l).
Proof.
  induction l as [|q rest IH]; simpl; [apply Permutation_refl|].
  destruct (snd q <=? snd p)%nat; [apply Permutation_refl|].
  eapply Permutation_trans; [apply perm_skip, IH|apply perm_swap].
Qed.

Lemma sort_desc_perm (l : list (Cell * nat)) : Permutation (sort_desc l) l.
Proof.
  induction l as [|p rest IH]; simpl; [constructor|].
  eapply Permutation_trans; [apply insert_desc_perm|apply perm_skip, IH].
Qed.

Lemma insert_desc_falling (p : Cell * nat) (l : list (Cell * nat)) :
  falling l -> falling (insert_desc p l).
Proof.
  unfold falling. induction 1 as [|q rest Hrest IH Hq]; simpl.
  - constructor; constructor.
  - destruct (Nat.leb_spec (snd q) (snd p)) as [Hle|Hlt].
    + constructor; [constructor; assumption|].
      constructor; [exact Hle|].
      eapply Forall_impl; [|exact Hq]. intros r Hr. simpl in *. lia.
    + constructor; [exact IH|].
      apply (Permutation_Forall (Permutation_sym (insert_desc_perm p rest))).
      constructor; [lia|exact Hq].
Qed.

Lemma sort_desc_falling (l : list (Cell * nat)) : falling (sort_desc l).
Proof.
  induction l as [|p rest IH]; simpl; [constructor|].
  apply insert_desc_falling, IH.
Qed.

Lemma sort_desc_sorted_id (l : list (Cell * nat)) :
  falling l -> sort_desc l = l.
Proof.
  unfold falling. induction 1 as [|q rest Hrest IH Hq]; simpl; [reflexivity|].
  rewrite IH. destruct rest as [|r rest']; [reflexivity|]. simpl.
  inversion Hq as [|? ? Hr _]; subst.
  destruct (Nat.leb_spec (snd r) (snd q)); [reflexivity|lia].
Qed.

Lemma bump_entries (c : Cell) (acc : list (Cell * nat)) :
  isna c = false ->
  Forall (fun p => (1 <= snd p)%nat /\ isna (fst p) = false) acc ->
  Forall (fun p => (1 <= snd p)%nat /\ isna (fst p) = false) (bump c acc).
Proof.
  intros Hc. induction 1 as [|[v n] rest [Hn Hv] Hrest IH]; simpl.
  - constructor; [simpl; split; [lia|exact Hc]|constructor].
  - simpl in Hn, Hv. destruct (cell_eqb c v); constructor; simpl.
    + split; [lia|exact Hv].
    + exact Hrest.
    + split; [exact Hn|exact Hv].
    + exact IH.
Qed.

Lemma tally_entries (cells : list Cell) (acc : list (Cell * nat)) :
  Forall (fun p => (1 <= snd p)%nat /\ isna (fst p) = false) acc ->
  Forall (fun p => (1 <= snd p)%nat /\ isna (fst p) = false)
         (fold_left (fun a c => if isna c then a else bump c a) cells acc).
Proof.
  revert acc. induction cells as [|c rest IH]; intros acc Hacc; simpl;
    [exact Hacc|].
  apply IH. destruct (isna c) eqn:E; [exact Hacc|].
  apply bump_entries; assumption.
Qed.

Lemma value_counts_sum (s : Series) : total (value_counts s) = count s.
Proof.
  unfold value_counts, tally, count.
  rewrite total_sort, tally_from_total. reflexivity.
Qed.

Lemma value_counts_falling (s : Series) : falling (value_counts s).
Proof. apply sort_desc_falling. Qed.

(** [value_counts()] counts every non-missing row exactly once: the
    counts add up to [count()], each listed value is non-missing and
    occurs at least once, and the list is sorted by falling count, so
    it has at most [count()] entries. *)
Theorem value_counts_total (s : Series) :
  total (value_counts s) = count s /\
  Forall (fun p => (1 <= snd p)%nat /\ isna (fst p) = false) (value_counts s) /\
  falling (value_counts s) /\
  (length (value_counts s) <= count s)%nat.
Proof.
  pose proof (value_counts_sum s) as Htot.
  assert (Hent : Forall (fun p => (1 <= snd p)%nat /\ isna (fst p) = false)
                        (value_counts s)).
  { unfold value_counts, tally.
    apply (Permutation_Forall (Permutation_sym (sort_desc_perm _))).
    apply tally_entries. constructor. }
  split; [exact Htot|]. split; [exact Hent|].
  split; [apply sort_desc_falling|].
  rewrite <- Htot. clear Htot.
  induction Hent as [|p rest [Hp _] _ IH]; simpl; lia.
Qed.

Lemma total_firstn_le (n : nat) (l : list (Cell * nat)) :
  (total (firstn n l) <= total l)%nat.
Proof.
  revert l. induction n as [|n IH]; intros [|p l]; simpl; try lia.
  specialize (IH l). lia.
Qed.

Lemma falling_split (n : nat) (l : list (Cell * nat)) :
  falling l ->
  forall p q, In p (firstn n l) -> In q (skipn n l) -> (snd q <= snd p)%nat.
Proof.
  unfold falling. intros H. revert n.
  induction H as [|a rest Hrest IH Ha]; intros n p q Hp Hq.
  - rewrite firstn_nil in Hp. contradiction.
  - destruct n as [|n]; [contradiction|]. simpl in Hp, Hq.
    destruct Hp as [<-|Hp].
    + rewrite Forall_forall in Ha. apply Ha.
      rewrite <- (firstn_skipn n rest). apply in_or_app. right. exact Hq.
    + apply (IH n p q Hp Hq).
Qed.

(** The bar charts of line 53 and 79 show at most ten bars: the first
    ten entries of [value_counts()], which are the ten largest counts
    (no value left out has a larger count than one shown), in falling
    order; together they count at most the non-missing rows. *)
Theorem top_counts_are_the_largest (s : Series) :
  top_counts s = firstn 10 (value_counts s) /\
  (length (top_counts s) <= 10)%nat /\
  falling (top_counts s) /\
  (forall p q, In p (top_counts s) -> In q (skipn 10 (value_counts s)) ->
     (snd q <= snd p)%nat) /\
  (total (top_counts s) <= count s)%nat /\
  ((length (value_counts s) <= 10)%nat -> top_counts s = value_counts s).
Proof.
  pose proof (value_counts_sum s) as Htot.
  pose proof (value_counts_falling s) as Hfall.
  assert (Heq : top_counts s = firstn 10 (value_counts s)).
  { unfold top_counts, nlargest. rewrite (sort_desc_sorted_id _ Hfall).
    reflexivity. }
  rewrite Heq. split; [reflexivity|].
  split; [apply firstn_le_length|].
  split.
  { unfold falling in *.
    assert (Hf : forall n l, StronglySorted (fun p q : Cell * nat =>
                   (snd q <= snd p)%nat) l ->
                 StronglySorted (fun p q : Cell * nat =>
                   (snd q <= snd p)%nat) (firstn n l)).
    { intros n l H. revert n. induction H as [|a rest Hrest IH Ha]; intros n.
      - rewrite firstn_nil. constructor.
      - destruct n as [|n]; simpl; constructor; [apply IH|].
        rewrite Forall_forall in *. intros x Hx. apply Ha.
        apply (firstn_In _ _ _ Hx). }
    apply Hf, Hfall. }
  split; [apply (falling_split 10 _ Hfall)|].
  split.
  - rewrite <- Htot. apply total_firstn_le.
  - intros Hlen. apply firstn_all2. exact Hlen.
Qed.

End Counts.

(** ** Each count is the number of rows with that value *)

Section CountsPointwise.

Lemma Qeq_bool_sym (x y : Q) : Qeq_bool x y = Qeq_bool y x.
Proof.
  apply eq_true_iff_eq. rewrite !Qeq_bool_iff. split; apply Qeq_sym.
Qed.

Lemma cell_eqb_sym (a b : Cell) : cell_eqb a b = cell_eqb b a.
Proof.
  destruct a, b; simpl; try reflexivity;
    try apply Qeq_bool_sym; try apply String.eqb_sym; try apply Z.eqb_sym.
Qed.

Lemma cell_eqb_refl (a : Cell) : isna a = false -> cell_eqb a a = true.
Proof.
  destruct a; simpl; try discriminate; intros _.
  - apply Qeq_bool_iff, Qeq_refl.
  - apply Qeq_bool_iff, Qeq_refl.
  - apply String.eqb_refl.
  - apply Z.eqb_refl.
Qed.

Lemma cell_eqb_trans (a b c : Cell) :
  cell_eqb a b = true -> cell_eqb b c = true -> cell_eqb a c = true.
Proof.
  destruct a, b, c; simpl; try discriminate;
    rewrite ?Qeq_bool_iff, ?String.eqb_eq, ?Z.eqb_eq;
    try (intros H1 H2; rewrite H1; exact H2);
    try congruence.
Qed.

Lemma cell_eqb_missing (a b : Cell) : isna a = true -> cell_eqb a b = false.
Proof. destruct a, b; simpl; try discriminate; reflexivity. Qed.

Lemma occurrences_snoc (v c : Cell) (seen : list Cell) :
  occurrences v (seen ++ [c]) =
  (occurrences v seen + if cell_eqb c v then 1 else 0)%nat.
Proof.
  unfold occurrences. rewrite filter_app, length_app. simpl.
  destruct (cell_eqb c v); reflexivity.
Qed.

Lemma distinct_snoc (keys : list Cell) (c : Cell) :
  distinct keys -> Forall (fun k => cell_eqb k c = false) keys ->
  distinct (keys ++ [c]).
Proof.
  induction keys as [|k rest IH]; simpl; intros Hd Hc.
  - split; [constructor|exact I].
  - destruct Hd as [Hk Hrest]. inversion Hc as [|? ? Hkc Hrc]; subst.
    split; [|apply IH; assumption].
    apply Forall_app. split; [exact Hk|]. constructor; [exact Hkc|constructor].
Qed.

Lemma distinct_unique (acc : list (Cell * nat)) (p q : Cell * nat) :
  distinct (map fst acc) -> In p acc -> In q acc ->
  cell_eqb (fst p) (fst q) = true -> p = q.
Proof.
  induction acc as [|a rest IH]; simpl; [contradiction|].
  intros [Ha Hd] [->|Hp] [->|Hq] He; auto.
  - rewrite Forall_forall in Ha.
    rewrite (Ha (fst q) (in_map fst _ _ Hq)) in He. discriminate.
  - rewrite Forall_forall in Ha. rewrite cell_eqb_sym in He.
    rewrite (Ha (fst p) (in_map fst _ _ Hp)) in He. discriminate.
Qed.

(** What [bump] does: it raises the count of the one entry equal to
    [c], or appends [c] with count 1 if there is none. *)
Lemma bump_cases (c : Cell) (acc : list (Cell * nat)) :
  (exists l1 v n l2,
     acc = l1 ++ (v, n) :: l2 /\ cell_eqb c v = true /\
     Forall (fun p => cell_eqb c (fst p) = false) l1 /\
     bump c acc = l1 ++ (v, S n) :: l2) \/
  (Forall (fun p => cell_eqb c (fst p) = false) acc /\
   bump c acc = acc ++ [(c, 1%nat)]).
Proof.
  induction acc as [|[v n] rest IH]; simpl.
  - right. split; [constructor|reflexivity].
  - destruct (cell_eqb c v) eqn:E.
    + left. exists [], v, n, rest. repeat split; [exact E|constructor].
    + destruct IH as [[l1 [v' [n' [l2 [-> [Hv [Hl1 ->]]]]]]]|[Hall ->]].
      * left. exists ((v, n) :: l1), v', n', l2.
        repeat split; [exact Hv|]. constructor; [exact E|exact Hl1].
      * right. split; [constructor; [exact E|exact Hall]|reflexivity].
Qed.

(** The table of counts after the cells [seen]: right counts, distinct
    values, and an entry for every non-missing cell. *)
Lemma bump_table (c : Cell) (acc : list (Cell * nat)) (seen : list Cell) :
  isna c = false ->
  distinct (map fst acc) ->
  (forall p, In p acc -> snd p = occurrences (fst p) seen) ->
  (forall x, In x seen -> isna x = false ->
     exists p, In p acc /\ cell_eqb x (fst p) = true) ->
  distinct (map fst (bump c acc)) /\
  (forall p, In p (bump c acc) -> snd p = occurrences (fst p) (seen ++ [c])) /\
  (forall x, In x (seen ++ [c]) -> isna x = false ->
     exists p, In p (bump c acc) /\ cell_eqb x (fst p) = true).
Proof.
  intros Hc Hd Hcnt Hcov.
  destruct (bump_cases c acc)
    as [[l1 [v [n [l2 [Hacc [Hv [Hl1 ->]]]]]]]|[Hall ->]].
  - subst acc.
    assert (Hkeys : map fst (l1 ++ (v, S n) :: l2) = map fst (l1 ++ (v, n) :: l2)).
    { rewrite !map_app. reflexivity. }
    assert (Hother : forall p, In p (l1 ++ l2) -> cell_eqb c (fst p) = false).
    { intros p Hp. apply in_app_or in Hp. destruct Hp as [Hp|Hp].
      - rewrite Forall_forall in Hl1. apply Hl1, Hp.
      - destruct (cell_eqb c (fst p)) eqn:E; [|reflexivity].
        assert (Hvp : cell_eqb v (fst p) = true).
        { apply (cell_eqb_trans v c); [rewrite cell_eqb_sym; exact Hv|exact E]. }
        assert (Heq : (v, n) = p).
        { apply (distinct_unique _ _ _ Hd).
          - apply in_or_app. right. left. reflexivity.
          - apply in_or_app. right. right. exact Hp.
          - exact Hvp. }
        subst p. exfalso.
        (* (v, n) occurs twice in a table of distinct values *)
        clear - Hd Hp Hc Hv.
        assert (Hvv : cell_eqb v v = true).
        { apply (cell_eqb_trans v c); [rewrite cell_eqb_sym|]; exact Hv. }
        induction l1 as [|a l1 IH]; simpl in Hd.
        + destruct Hd as [Hf _]. rewrite Forall_forall in Hf.
          rewrite (Hf v (in_map fst _ _ Hp)) in Hvv. discriminate.
        + apply IH. apply Hd. }
    split; [rewrite Hkeys; exact Hd|]. split.
    + intros p Hp. rewrite occurrences_snoc.
      apply in_app_or in Hp. destruct Hp as [Hp|[<-|Hp]].
      * rewrite (Hother p (in_or_app _ _ _ (or_introl Hp))).
        rewrite (Hcnt p (in_or_app _ _ _ (or_introl Hp))). lia.
      * cbn [fst snd]. rewrite Hv.
        assert (H0 : In (v, n) (l1 ++ (v, n) :: l2)).
        { apply in_or_app. right. left. reflexivity. }
        apply Hcnt in H0. cbn [fst snd] in H0. lia.
      * rewrite (Hother p (in_or_app _ _ _ (or_intror Hp))).
        rewrite (Hcnt p); [lia|]. apply in_or_app. right. right. exact Hp.
    + intros x Hx Hna. apply in_app_or in Hx. destruct Hx as [Hx|[<-|[]]].
      * destruct (Hcov x Hx Hna) as [p [Hp He]].
        apply in_app_or in Hp. destruct Hp as [Hp|[<-|Hp]].
        -- exists p. split; [apply in_or_app; left; exact Hp|exact He].
        -- exists (v, S n). split; [apply in_or_app; right; left; reflexivity|exact He].
        -- exists p. split; [apply in_or_app; right; right; exact Hp|exact He].
      * exists (v, S n). split; [apply in_or_app; right; left; reflexivity|exact Hv].
  - assert (Hnew : occurrences c seen = O).
    { unfold occurrences. rewrite filter_all_false; [reflexivity|].
      intros x Hx. destruct (cell_eqb x c) eqn:E; [|reflexivity].
      assert (Hna : isna x = false).
      { destruct (isna x) eqn:Ex; [|reflexivity].
        rewrite (cell_eqb_missing x c Ex) in E. discriminate. }
      destruct (Hcov x Hx Hna) as [p [Hp He]].
      rewrite Forall_forall in Hall.
      assert (Hcp : cell_eqb c (fst p) = true).
      { apply (cell_eqb_trans c x); [rewrite cell_eqb_sym; exact E|exact He]. }
      rewrite (Hall p Hp) in Hcp. discriminate. }
    split.
    + rewrite map_app. apply distinct_snoc; [exact Hd|].
      apply Forall_forall. intros k Hk. apply in_map_iff in Hk.
      destruct Hk as [p [<- Hp]]. rewrite cell_eqb_sym.
      rewrite Forall_forall in Hall. apply Hall, Hp.
    + split.
      * intros p Hp. rewrite occurrences_snoc.
        apply in_app_or in Hp. destruct Hp as [Hp|[<-|[]]].
        -- rewrite Forall_forall in Hall. rewrite (Hall p Hp), (Hcnt p Hp). lia.
        -- cbn [fst snd]. rewrite (cell_eqb_refl c Hc), Hnew. reflexivity.
      * intros x Hx Hna. apply in_app_or in Hx. destruct Hx as [Hx|[<-|[]]].
        -- destruct (Hcov x Hx Hna) as [p [Hp He]].
           exists p. split; [apply in_or_app; left; exact Hp|exact He].
        -- exists (c, 1%nat). split; [apply in_or_app; right; left; reflexivity|].
           apply (cell_eqb_refl c Hc).
Qed.

Lemma tally_table (cells : list Cell) :
  forall (acc : list (Cell * nat)) (seen : list Cell),
  distinct (map fst acc) ->
  (forall p, In p acc -> snd p = occurrences (fst p) seen) ->
  (forall x, In x seen -> isna x = false ->
     exists p, In p acc /\ cell_eqb x (fst p) = true) ->
  let out := fold_left (fun a c => if isna c then a else bump c a) cells acc in
  distinct (map fst out) /\
  (forall p, In p out -> snd p = occurrences (fst p) (seen ++ cells)) /\
  (forall x, In x (seen ++ cells) -> isna x = false ->
     exists p, In p out /\ cell_eqb x (fst p) = true).
Proof.
  induction cells as [|c rest IH]; intros acc seen Hd Hcnt Hcov; simpl.
  - rewrite app_nil_r. auto.
  - replace (seen ++ c :: rest) with ((seen ++ [c]) ++ rest)
      by (rewrite <- app_assoc; reflexivity).
    destruct (isna c) eqn:Ec.
    + apply IH; [exact Hd| |].
      * intros p Hp. rewrite occurrences_snoc, cell_eqb_missing by exact Ec.
        rewrite (Hcnt p Hp). lia.
      * intros x Hx Hna. apply in_app_or in Hx. destruct Hx as [Hx|[<-|[]]];
          [apply (Hcov x Hx Hna)|congruence].
    + destruct (bump_table c acc seen Ec Hd Hcnt Hcov) as [Hd' [Hcnt' Hcov']].
      apply IH; assumption.
Qed.

(** Every entry of [value_counts()] is a value of the column with the
    number of rows that hold it; no value is listed twice, and every
    non-missing cell of the column has its entry. *)
Theorem value_counts_pointwise (s : Series) :
  (forall v n, In (v, n) (value_counts s) ->
     n = occurrences v (values s) /\ (1 <= n)%nat /\ isna v = false) /\
  (forall c, In c (values s) -> isna c = false ->
     exists v n, In (v, n) (value_counts s) /\ cell_eqb c v = true) /\
  (forall p q, In p (value_counts s) -> In q (value_counts s) ->
     cell_eqb (fst p) (fst q) = true -> p = q).
Proof.
  destruct (tally_table (values s) [] [] I
              (fun p (H : In p []) => match H with end)
              (fun x (H : In x []) => match H with end))
    as [Hd [Hcnt Hcov]].
  cbn [app] in Hcnt, Hcov. fold (tally (values s)) in Hd, Hcnt, Hcov.
  assert (Hin : forall p, In p (value_counts s) <-> In p (tally (values s))).
  { intros p. unfold value_counts. split; apply Permutation_in.
    - apply sort_desc_perm.
    - apply Permutation_sym, sort_desc_perm. }
  assert (Hent : Forall (fun p => (1 <= snd p)%nat /\ isna (fst p) = false)
                        (tally (values s))).
  { apply tally_entries. constructor. }
  split; [|split].
  - intros v n Hp. apply Hin in Hp. split; [apply (Hcnt _ Hp)|].
    rewrite Forall_forall in Hent. apply (Hent _ Hp).
  - intros c Hc Hna. destruct (Hcov c Hc Hna) as [[v n] [Hp He]].
    exists v, n. split; [apply Hin, Hp|exact He].
  - intros p q Hp Hq He. apply Hin in Hp, Hq.
    apply (distinct_unique _ _ _ Hd Hp Hq He).
Qed.

End CountsPointwise.

(** ** What [errors='coerce'] changes *)

Section ErrorModes.

Context {P : Parsing}.



Lemma filter_idem {A} (f : A -> bool) (l : list A) :
  filter f (filter f l) = filter f l.
Proof.
  induction l as [|a l IH]; simpl; [reflexivity|].
  destruct (f a) eqn:E; simpl; [rewrite E, IH; reflexivity|exact IH].
Qed.

(** Pruning twice is pruning once: [dropna(axis=1)] keeps the rows, so
    the threshold and every column's count are the same the second
    time and no further column goes. *)
Theorem pruning_is_idempotent (d : DataFrame) :
  prune_missing (prune_missing d) = prune_missing d.
Proof.
  unfold prune_missing, dropna_columns. cbn [nrows columns].
  rewrite filter_idem. reflexivity.
Qed.

End ErrorModes.


(** ** The state labels *)

Section StateLabels.

Lemma same_value_sym (a b : Cell) : same_value a b = same_value b a.
Proof.
  destruct a, b; try reflexivity; unfold same_value; apply cell_eqb_sym.
Qed.

Lemma same_value_present (a b : Cell) :
  isna a = false -> same_value a b = cell_eqb a b.
Proof. destruct a, b; simpl; try discriminate; reflexivity. Qed.

Lemma true_rows_In (mask : list bool) (i j : nat) :
  In j (true_rows mask i) <->
  exists k, j = (i + k)%nat /\ nth_error mask k = Some true.
Proof.
  revert i. induction mask as [|b rest IH]; intros i; simpl.
  - split; [contradiction|]. intros [[|k] [_ H]]; discriminate.
  - assert (Hrest : In j (true_rows rest (S i)) <->
                    exists k, j = (i + S k)%nat /\ nth_error rest k = Some true).
    { rewrite IH. split; intros [k [Hj Hk]]; exists k; split; auto; lia. }
    destruct b; simpl; rewrite Hrest; split.
    + intros [<-|[k [Hj Hk]]].
      * exists O. split; [lia|reflexivity].
      * exists (S k). auto.
    + intros [[|k] [Hj Hk]].
      * left. lia.
      * right. exists k. auto.
    + intros [k [Hj Hk]]. exists (S k). auto.
    + intros [[|k] [Hj Hk]]; [discriminate|]. exists k. auto.
Qed.

(** The mask of line 103 keeps the rows whose state equals the label. *)
Lemma rows_where_In (s : Series) (v : Cell) (i : nat) :
  In i (rows_where s v) <->
  exists c, nth_error (values s) i = Some c /\ cell_eqb c v = true.
Proof.
  unfold rows_where, eq_mask. rewrite true_rows_In. split.
  - intros [k [-> Hk]]. simpl. rewrite nth_error_map in Hk.
    destruct (nth_error (values s) k) as [c|]; [|discriminate].
    exists c. split; [reflexivity|]. simpl in Hk. congruence.
  - intros [c [Hc Hv]]. exists i. split; [reflexivity|].
    rewrite nth_error_map, Hc. simpl. rewrite Hv. reflexivity.
Qed.

Lemma unique_from_In (seen cells : list Cell) (v : Cell) :
  In v (unique_from seen cells) ->
  In v cells /\ existsb (same_value v) seen = false.
Proof.
  revert seen. induction cells as [|c rest IH]; intros seen; simpl; [contradiction|].
  destruct (existsb (same_value c) seen) eqn:E.
  - intros H. destruct (IH _ H) as [Hin Hs]. auto.
  - intros [<-|H]; [auto|].
    destruct (IH _ H) as [Hin Hs]. simpl in Hs.
    apply orb_false_iff in Hs. split; [right; exact Hin|apply Hs].
Qed.

Lemma same_value_trans (a b c : Cell) :
  same_value a b = true -> same_value b c = true -> same_value a c = true.
Proof.
  destruct a, b, c; simpl; try discriminate; try reflexivity;
    rewrite ?Qeq_bool_iff, ?String.eqb_eq, ?Z.eqb_eq;
    try (intros H1 H2; rewrite H1; exact H2);
    try congruence.
Qed.

Lemma unique_from_covers (seen cells : list Cell) (c : Cell) :
  In c cells ->
  existsb (same_value c) seen = true \/
  exists v, In v (unique_from seen cells) /\ same_value c v = true.
Proof.
  revert seen. induction cells as [|x rest IH]; intros seen; simpl; [contradiction|].
  assert (Hrefl : same_value c c = true \/ isna c = false).
  { destruct c; simpl; auto. }
  intros [->|Hin].
  - destruct (existsb (same_value c) seen) eqn:E; [left; reflexivity|].
    right. exists c. split; [left; reflexivity|].
    destruct Hrefl as [H|H]; [exact H|].
    rewrite same_value_present by exact H. apply cell_eqb_refl, H.
  - destruct (existsb (same_value x) seen) eqn:E.
    + apply IH, Hin.
    + destruct (IH (x :: seen) Hin) as [H|[v [Hv Hc]]].
      * simpl in H. apply orb_true_iff in H. destruct H as [H|H]; [|left; exact H].
        right. exists x. split; [left; reflexivity|exact H].
      * right. exists v. split; [right; exact Hv|exact Hc].
Qed.

Lemma unique_from_unlike (seen cells : list Cell) :
  unlike (unique_from seen cells).
Proof.
  revert seen. induction cells as [|c rest IH]; intros seen; simpl; [exact I|].
  destruct (existsb (same_value c) seen); [apply IH|].
  simpl. split; [|apply IH].
  apply Forall_forall. intros v Hv.
  apply unique_from_In in Hv. destruct Hv as [_ Hs]. simpl in Hs.
  apply orb_false_iff in Hs. rewrite same_value_sym. apply Hs.
Qed.

Lemma unlike_unique (labels : list Cell) (v v' : Cell) :
  unlike labels -> In v labels -> In v' labels ->
  same_value v v' = true -> v = v'.
Proof.
  induction labels as [|a rest IH]; simpl; [contradiction|].
  intros [Ha Hd] [->|Hv] [->|Hv'] He; auto.
  - rewrite Forall_forall in Ha. rewrite (Ha v' Hv') in He. discriminate.
  - rewrite Forall_forall in Ha. rewrite same_value_sym in He.
    rewrite (Ha v Hv) in He. discriminate.
Qed.

Lemma cell_eqb_present (a b : Cell) :
  cell_eqb a b = true -> isna a = false /\ isna b = false.
Proof. destruct a, b; simpl; try discriminate; auto. Qed.

(** The loop of line 102-105 labels every row that has a state exactly
    once.  The labels are values of the column, none is visited twice;
    the mask of a label keeps exactly the rows whose state equals it, at
    least one row for a state, no row for the missing value; and a row
    with a state is kept by exactly one label. *)
Theorem state_labels_cover_rows (s : Series) :
  unlike (unique s) /\
  (forall v, In v (unique s) ->
     In v (values s) /\
     if isna v then rows_where s v = [] else rows_where s v <> []) /\
  (forall v i, In i (rows_where s v) <->
     exists c, nth_error (values s) i = Some c /\ cell_eqb c v = true) /\
  (forall i c, nth_error (values s) i = Some c -> isna c = false ->
     exists v, In v (unique s) /\ In i (rows_where s v) /\
       forall v', In v' (unique s) -> In i (rows_where s v') -> v' = v) /\
  (forall c, In c (values s) ->
     exists v, In v (unique s) /\ same_value c v = true).
Proof.
  split; [apply unique_from_unlike|].
  split.
  { intros v Hv. apply unique_from_In in Hv. destruct Hv as [Hin _].
    split; [exact Hin|]. destruct (isna v) eqn:E.
    - destruct (rows_where s v) as [|i l] eqn:Er; [reflexivity|].
      assert (Hi : In i (rows_where s v)) by (rewrite Er; left; reflexivity).
      apply rows_where_In in Hi. destruct Hi as [c [_ Hc]].
      apply cell_eqb_present in Hc. destruct Hc as [_ Hc]. congruence.
    - apply In_nth_error in Hin. destruct Hin as [i Hi].
      assert (Hr : In i (rows_where s v)).
      { apply rows_where_In. exists v. split; [exact Hi|apply cell_eqb_refl, E]. }
      intros Hnil. rewrite Hnil in Hr. contradiction. }
  split; [apply rows_where_In|].
  assert (Hcov : forall c, In c (values s) ->
            exists v, In v (unique s) /\ same_value c v = true).
  { intros c Hc. destruct (unique_from_covers [] _ c Hc) as [H|H];
      [discriminate|exact H]. }
  split; [|exact Hcov].
  intros i c Hi Hc.
  destruct (Hcov c (nth_error_In _ _ Hi)) as [v [Hv Hcv]].
  rewrite same_value_present in Hcv by exact Hc.
  exists v. split; [exact Hv|]. split.
  - apply rows_where_In. exists c. auto.
  - intros v' Hv' Hr. apply rows_where_In in Hr. destruct Hr as [c' [Hi' Hc']].
    rewrite Hi in Hi'. injection Hi' as <-.
    apply (unlike_unique (unique s)); auto; [apply unique_from_unlike|].
    assert (Hvv : cell_eqb v' v = true).
    { apply (cell_eqb_trans v' c v); [|exact Hcv].
      rewrite cell_eqb_sym. exact Hc'. }
    rewrite same_value_present; [exact Hvv|].
    apply (cell_eqb_present _ _ Hvv).
Qed.

End StateLabels.

(** ** What the numeric snapshot holds *)

Section NumericSnapshot.

Context {P : Parsing} {R : Rng}.
Variable render : PlotKind -> DataFrame -> option Exn.






End NumericSnapshot.

(** ** Running the cleaning steps again *)

Section Idempotent.

Context {P : Parsing} {R : Rng}.
Variable render : PlotKind -> DataFrame -> option Exn.







End Idempotent.

(** ** Records past the limit *)

Section PastLimit.

Context {P : Parsing} {R : Rng}.
Variable render : PlotKind -> DataFrame -> option Exn.


End PastLimit.

(** * The demo run, checked against the theorems *)

Section DemoRun.

Import Demo.

Lemma prune_missing_threshold_witness :
  let d := read_csv demo_csv nrows_limit in
  let c := nth 12 (columns d) ("", mkSeries Object []) in
  fst c = "Wind_Chill(F)" /\ In c (columns d) /\ ~ In c (columns (prune_missing d)).
Proof.
  intros d c.
  assert (Hin : In c (columns d)).
  { vm_compute. do 12 right. left. reflexivity. }
  split; [vm_compute; reflexivity|]. split; [exact Hin|].
  destruct (proj2 (proj2 (prune_missing_threshold demo_csv)) c Hin) as [Hiff _].
  intros H. pose proof (proj1 Hiff H) as H'. vm_compute in H'. exact (H' eq_refl).
Defined.










(** C9 as stated fails: without a 'State' column the exception the
    program raises is seaborn's ValueError, not a KeyError. *)
Lemma state_missing_is_not_key_error :
  (exists msg s,
     run demo_render (without "State" demo_csv) seed0 = Raised (ValueError msg) s) /\
  ~ (exists key s,
     run demo_render (without "State" demo_csv) seed0 = Raised (KeyError key) s).
Proof.
  assert (H : match run demo_render (without "State" demo_csv) seed0 with
              | Raised (ValueError _) _ => True
              | _ => False
              end).
  { vm_compute. exact I. }
  destruct (run demo_render (without "State" demo_csv) seed0) as [a s|e s];
    [contradiction|].
  destruct e; try contradiction.
  split; [eauto|]. intros [key [s' E]]. discriminate E.
Qed.

Lemma column_absence_handling_witness :
  city_bar demo_render (setup (without "City" demo_csv) seed0)
    = Ok tt (setup (without "City" demo_csv) seed0) /\
  (exists key s',
     run demo_render (without "Temperature(F)" demo_csv) seed0
       = Raised (KeyError key) s' /\ shown s' = []) /\
  completed (run demo_render (without "State" demo_csv) seed0) = false.
Proof.
  destruct (column_absence_handling demo_render) as [H1 [_ [_ [H4 H5]]]].
  assert (Hin : In (CityBar, city_bar demo_render) (plot_steps demo_render)).
  { unfold plot_steps. right. left. reflexivity. }
  assert (Hg : guard_of CityBar (df (setup (without "City" demo_csv) seed0)) = false).
  { vm_compute. reflexivity. }
  assert (Ht : has_column "Temperature(F)"
                 (df (setup (without "Temperature(F)" demo_csv) seed0)) = false).
  { vm_compute. reflexivity. }
  assert (Hs : has_column "State"
                 (df (setup (without "State" demo_csv) seed0)) = false).
  { vm_compute. reflexivity. }
  split; [exact (H1 CityBar (city_bar demo_render) _ Hin Hg)|].
  split; [exact (H4 _ _ Ht)|].
  exact (proj1 (H5 _ _ Hs)).
Defined.

Lemma pairplot_sample_deterministic_witness :
  df_sample (final_state (pairplot demo_render (setup demo_csv seed0))) =
  df_sample (final_state (pairplot demo_render (setup demo_csv seed1))).
Proof.
  assert (Hdf : df (setup demo_csv seed0) = df (setup demo_csv seed1)).
  { reflexivity. }
  exact (proj2 (proj2 (proj2 (proj2 (proj2 (proj2
    (pairplot_sample_deterministic demo_render _ _ Hdf))))))).
Defined.

(** *** What the script's arguments buy *)

(** Under [errors='raise'] the malformed temperature would stop the run. *)
Example raise_mode_raises :
  to_numeric ErrRaise (mkSeries Object [Str "36"; Str "warm"; Str "61"])
    = inl (ValueError "Unable to parse").
Proof. reflexivity. Qed.

(** A fixed [n=5000] fails on a frame of five rows. *)
Example fixed_size_sample_fails :
  sample seed0 (Z.to_nat 5000) (Some 42) (df (setup demo_csv seed0)) =
  inl (ValueError "Cannot take a larger sample than population when 'replace=False'").
Proof. vm_compute. reflexivity. Qed.

(** Without [random_state] the rows drawn depend on the global
    generator. *)
Example unseeded_sample_depends_on_generator :
  sample_rows seed0 2 None (df (setup demo_csv seed0)) = inr [0; 1]%nat /\
  sample_rows seed1 2 None (df (setup demo_csv seed0)) = inr [4; 3]%nat.
Proof. split; vm_compute; reflexivity. Qed.

End DemoRun.

(** * The further runs, checked against the theorems *)

Section MoreDemoRun.

Import Demo MoreDemo.

Lemma run_without_start_time_witness :
  completed (run demo_render (without "Start_Time" demo_csv) seed0) = false /\
  figures (run demo_render (without "Start_Time" demo_csv) seed0) =
    [Heatmap; CityBar; SeverityPie; RoadPie; WeatherBar].
Proof.
  assert (Hs : has_column "Start_Time"
                 (df (setup (without "Start_Time" demo_csv) seed0)) = false).
  { vm_compute. reflexivity. }
  destruct (run_without_start_time demo_render _ _ Hs) as [_ [Hc _]].
  split; [exact Hc|]. vm_compute. reflexivity.
Defined.

Lemma numeric_airport_code_breaks_pairplot_witness :
  In "Airport_Code" (column_names (df_num (setup coded_csv seed0))) /\
  completed (run demo_render coded_csv seed0) = false /\
  ~ In Pairplot (figures (run demo_render coded_csv seed0)).
Proof.
  assert (Hin : In "Airport_Code" (column_names (df_num (setup coded_csv seed0)))).
  { vm_compute. do 3 right. left. reflexivity. }
  destruct (numeric_airport_code_breaks_pairplot demo_render _ _ Hin)
    as [_ [Hc Hp]].
  split; [exact Hin|]. split; [exact Hc|exact Hp].
Defined.

Lemma reached_boxplot_witness :
  has_column "Temperature(F)" (df before_boxplot) = true /\
  guard_of TempBox (df before_boxplot) = has_column "Severity" (df before_boxplot).
Proof.
  assert (Hrun : run_steps (firstn 8 (statements demo_render)) (setup demo_csv seed0)
                 = Ok tt before_boxplot).
  { vm_compute. reflexivity. }
  destruct (reached_boxplot demo_render demo_csv seed0 before_boxplot Hrun)
    as [Hall Hg].
  split; [|exact Hg]. apply Hall. simpl. auto.
Defined.

Lemma coerced_columns_stay_numeric_witness :
  Forall (fun c => exists x, cell_number c = Some x)
         (values (series_dropna demo_temperature)).
Proof.
  assert (Hrun : run_steps (firstn 8 (statements demo_render)) (setup demo_csv seed0)
                 = Ok tt before_boxplot).
  { vm_compute. reflexivity. }
  assert (Hl : lookup "Temperature(F)" (columns (df before_boxplot))
               = Some demo_temperature).
  { vm_compute. reflexivity. }
  assert (Hin : In "Temperature(F)" coerced_names).
  { simpl. auto. }
  exact (proj2 (coerced_columns_stay_numeric demo_render demo_csv seed0 7
                  before_boxplot "Temperature(F)" demo_temperature Hrun Hin Hl)).
Defined.



(** The hotspot chart of the demo file. *)
Example demo_top_cities :
  top_counts demo_city =
  [(Str "Dayton", 2%nat); (Str "Columbus", 2%nat); (Str "Los Angeles", 1%nat)].
Proof. reflexivity. Qed.





(** The labels of the demo file and the rows of each. *)
Example demo_state_labels :
  unique demo_state = [Str "OH"; Str "CA"] /\
  rows_where demo_state (Str "OH") = [0; 1; 3; 4]%nat /\
  rows_where demo_state (Str "CA") = [2]%nat.
Proof. repeat split. Qed.

End MoreDemoRun.
